(** * tennisViz: the archive-to-table transformer ([transformer.py])

    A shallow embedding of the script and the properties of its three
    stages: the archive reader ([sort_files], [files_content]), the shot
    extractor (the main loop) and the row writer.

    Conventions of the embedding.
    - A Python [str] is a [string]: a sequence of characters with code
      points 0..255, ordered by code point.
    - A JSON document is the value [json.loads] returns for it: [json] below,
      with Python's [int] as [Z] and Python's [float] as a binary64 [float].
    - A Python exception that ends the run is the [Err] outcome of the
      [result] monad; the script catches none. *)

From Stdlib Require Import String Ascii ZArith Bool Lia Arith List.
From Stdlib Require Import Sorting.Permutation Sorting.Sorted.
From Stdlib Require Import Floats.PrimFloat Floats.SpecFloat Floats.FloatOps.
Import ListNotations.

Local Open Scope string_scope.
Local Open Scope list_scope.
Local Open Scope Z_scope.

(* ================================================================== *)
(** * Exceptions and the result monad *)

Inductive py_error : Type :=
| KeyError | TypeError | AttributeError | IndexError
| ValueError | OverflowError | JSONDecodeError.

Inductive result (A : Type) : Type :=
| Ok (a : A)
| Err (e : py_error).

Arguments Ok {A} a.
Arguments Err {A} e.

Definition bind {A B : Type} (c : result A) (k : A -> result B) : result B :=
  match c with
  | Ok a => k a
  | Err e => Err e
  end.

Notation "x <- c ;; k" := (bind c (fun x => k))
  (at level 61, c at next level, right associativity).

Notation "' pat <- c ;; k" := (bind c (fun x => match x with pat => k end))
  (at level 61, pat pattern, c at next level, right associativity).

(** [for x in xs: f x], collecting the results; the first exception ends it. *)
Fixpoint mapM {A B : Type} (f : A -> result B) (xs : list A) : result (list B) :=
  match xs with
  | [] => Ok []
  | x :: xs' => y <- f x ;; ys <- mapM f xs' ;; Ok (y :: ys)
  end.

(* ================================================================== *)
(** * Python numbers: [int] and [float] *)

Module PyNum.

Inductive num : Type :=
| NInt (z : Z)
| NFloat (f : float).

(** The value of a finite binary64 number is [(-1)^s * m * 2^e]. *)
Definition pow2 (e : Z) : Z := Z.pow 2 e.

(** Exact comparison of an [int] with a [float], as [float_richcompare]
    does it: no rounding of the integer.  [None] when the float is a NaN. *)
Definition compare_int_float (z : Z) (f : float) : option comparison :=
  match Prim2SF f with
  | S754_nan => None
  | S754_zero _ => Some (Z.compare z 0)
  | S754_infinity false => Some Lt
  | S754_infinity true => Some Gt
  | S754_finite s m e =>
      let v := cond_Zopp s (Zpos m) in
      Some (if 0 <=? e then Z.compare z (v * pow2 e)
            else Z.compare (z * pow2 (- e)) v)
  end.

Definition num_lt (a b : num) : bool :=
  match a, b with
  | NInt x, NInt y => x <? y
  | NFloat x, NFloat y => PrimFloat.ltb x y
  | NInt x, NFloat y =>
      match compare_int_float x y with Some Lt => true | _ => false end
  | NFloat x, NInt y =>
      match compare_int_float y x with Some Gt => true | _ => false end
  end.

Definition num_eq (a b : num) : bool :=
  match a, b with
  | NInt x, NInt y => x =? y
  | NFloat x, NFloat y => PrimFloat.eqb x y
  | NInt x, NFloat y | NFloat y, NInt x =>
      match compare_int_float x y with Some Eq => true | _ => false end
  end.

(** [float(z)] as [int + float] converts it: to nearest, ties to even;
    OverflowError when the integer is too large for a binary64. *)
Definition float_of_int (z : Z) : result float :=
  match binary_normalize prec emax z 0 false with
  | S754_infinity _ => Err OverflowError
  | sf => Ok (SF2Prim sf)
  end.

Definition num_add (a b : num) : result num :=
  match a, b with
  | NInt x, NInt y => Ok (NInt (x + y))
  | NFloat x, NFloat y => Ok (NFloat (PrimFloat.add x y))
  | NInt x, NFloat y => fx <- float_of_int x ;; Ok (NFloat (PrimFloat.add fx y))
  | NFloat x, NInt y => fy <- float_of_int y ;; Ok (NFloat (PrimFloat.add x fy))
  end.

(** [int(f)]: truncation towards zero; ValueError on a NaN, OverflowError on
    an infinity. *)
Definition trunc_float (f : float) : result Z :=
  match Prim2SF f with
  | S754_nan => Err ValueError
  | S754_infinity _ => Err OverflowError
  | S754_zero _ => Ok 0
  | S754_finite s m e =>
      Ok (cond_Zopp s (if 0 <=? e then Zpos m * pow2 e
                       else Zpos m / pow2 (- e)))
  end.

(** [round(f)] of a finite float: to the nearest integer, ties to even. *)
Definition round_half_even (f : float) : Z :=
  match Prim2SF f with
  | S754_finite s m e =>
      if 0 <=? e then cond_Zopp s (Zpos m * pow2 e)
      else
        let d := pow2 (- e) in
        let q := Zpos m / d in
        let r := Zpos m mod d in
        let up := if 2 * r <? d then false
                  else if d <? 2 * r then true
                  else negb (Z.even q) in
        cond_Zopp s (if up then q + 1 else q)
  | _ => 0
  end.

End PyNum.
Import PyNum.

(* ================================================================== *)
(** * JSON values and the Python operations the script applies to them *)

#[warnings="-register-all"]
Inductive json : Type :=
| JNull
| JBool (b : bool)
| JInt (z : Z)
| JFloat (f : float)
| JStr (s : string)
| JArr (l : list json)
| JObj (kvs : list (string * json)).

(** A [dict] with string keys is the list of its items, in insertion order;
    the keys of a parsed document are distinct. *)
Fixpoint dict_lookup (kvs : list (string * json)) (k : string) : option json :=
  match kvs with
  | [] => None
  | (k', v) :: rest => if String.eqb k' k then Some v else dict_lookup rest k
  end.

(** [v[k]] with a string literal [k]: KeyError on a dict without the key,
    TypeError on everything that is not a dict. *)
Definition py_getitem (v : json) (k : string) : result json :=
  match v with
  | JObj kvs =>
      match dict_lookup kvs k with
      | Some x => Ok x
      | None => Err KeyError
      end
  | _ => Err TypeError
  end.

Notation "v .[ k ]" := (py_getitem v k) (at level 1, left associativity, format "v .[ k ]").

(** [v.get(k)]: only a dict has the method. *)
Definition py_get (v : json) (k : string) : result json :=
  match v with
  | JObj kvs =>
      match dict_lookup kvs k with
      | Some x => Ok x
      | None => Ok JNull
      end
  | _ => Err AttributeError
  end.

(** [for x in v]: the elements of a list, the keys of a dict, the characters
    of a string; nothing else is iterable. *)
Definition py_iter (v : json) : result (list json) :=
  match v with
  | JArr l => Ok l
  | JObj kvs => Ok (map (fun kv => JStr (fst kv)) kvs)
  | JStr s => Ok (map (fun c => JStr (String c EmptyString)) (list_ascii_of_string s))
  | _ => Err TypeError
  end.

(** [bool] is a subclass of [int]. *)
Definition as_num (v : json) : option num :=
  match v with
  | JBool b => Some (NInt (if b then 1 else 0))
  | JInt z => Some (NInt z)
  | JFloat f => Some (NFloat f)
  | _ => None
  end.

Definition of_num (n : num) : json :=
  match n with
  | NInt z => JInt z
  | NFloat f => JFloat f
  end.

(** [json] decodes every [NaN] literal to one and the same float object, so
    two NaNs met inside containers (or as dict keys) are identical objects. *)
Definition both_nan (a b : json) : bool :=
  match a, b with
  | JFloat f, JFloat g => is_nan f && is_nan g
  | _, _ => false
  end.

(** [a == b].  Containers compare their items with [x is y or x == y]. *)
Fixpoint py_eq (a b : json) {struct a} : bool :=
  match a, b with
  | JNull, JNull => true
  | JStr s, JStr t => String.eqb s t
  | JArr l, JArr m =>
      (fix items (l m : list json) {struct l} : bool :=
         match l, m with
         | [], [] => true
         | x :: l', y :: m' => (both_nan x y || py_eq x y) && items l' m'
         | _, _ => false
         end) l m
  | JObj kvs, JObj kvs' =>
      (fix items (l : list (string * json)) {struct l} : bool :=
         match l with
         | [] => true
         | (k, v) :: l' =>
             match dict_lookup kvs' k with
             | Some v' => (both_nan v v' || py_eq v v') && items l'
             | None => false
             end
         end) kvs
      && forallb (fun kv => match dict_lookup kvs (fst kv) with
                            | Some _ => true
                            | None => false
                            end) kvs'
  | _, _ =>
      match as_num a, as_num b with
      | Some x, Some y => num_eq x y
      | _, _ => false
      end
  end.

Definition same_or_eq (a b : json) : bool := both_nan a b || py_eq a b.

(** [a < b]: numbers with numbers, strings with strings, lists with lists;
    TypeError otherwise. *)
Fixpoint py_lt (a b : json) {struct a} : result bool :=
  match a, b with
  | JStr s, JStr t => Ok (String.ltb s t)
  | JArr l, JArr m =>
      (fix items (l m : list json) {struct l} : result bool :=
         match l, m with
         | [], [] => Ok false
         | [], _ :: _ => Ok true
         | _ :: _, [] => Ok false
         | x :: l', y :: m' =>
             if same_or_eq x y then items l' m' else py_lt x y
         end) l m
  | _, _ =>
      match as_num a, as_num b with
      | Some x, Some y => Ok (num_lt x y)
      | _, _ => Err TypeError
      end
  end.

(** [a + b]. *)
Definition py_add (a b : json) : result json :=
  match as_num a, as_num b with
  | Some x, Some y => n <- num_add x y ;; Ok (of_num n)
  | _, _ =>
      match a, b with
      | JStr s, JStr t => Ok (JStr (s ++ t)%string)
      | JArr l, JArr m => Ok (JArr (l ++ m))
      | _, _ => Err TypeError
      end
  end.

(** Truth value of an object, as [if v] takes it. *)
Definition py_truthy (v : json) : bool :=
  match v with
  | JNull => false
  | JBool b => b
  | JInt z => negb (z =? 0)
  | JFloat f => negb (PrimFloat.eqb f 0%float)
  | JStr s => negb (String.eqb s "")
  | JArr l => match l with [] => false | _ => true end
  | JObj kvs => match kvs with [] => false | _ => true end
  end.

(** [v > len(l)]. *)
Definition py_gt_len (v : json) (n : nat) : result bool :=
  match as_num v with
  | Some x => Ok (num_lt (NInt (Z.of_nat n)) x)
  | None => Err TypeError
  end.

(** [l[i]] with an integer [i]: a negative index counts from the end. *)
Definition list_index {A : Type} (l : list A) (i : Z) : result A :=
  let n := Z.of_nat (length l) in
  let j := if i <? 0 then i + n else i in
  if (j <? 0) || (n <=? j) then Err IndexError
  else match nth_error l (Z.to_nat j) with
       | Some x => Ok x
       | None => Err IndexError
       end.

(** [l[v - 1]]: the subtraction wants a number, the subscript an integer. *)
Definition py_index_pred {A : Type} (l : list A) (v : json) : result A :=
  match as_num v with
  | Some (NInt z) => list_index l (z - 1)
  | Some (NFloat _) => Err TypeError
  | None => Err TypeError
  end.

(** Dicts keyed by arbitrary hashable values (the player roster). *)
Definition hashable (v : json) : bool :=
  match v with
  | JArr _ | JObj _ => false
  | _ => true
  end.

Definition pydict : Type := list (json * json).

Fixpoint pydict_set (d : pydict) (k v : json) : pydict :=
  match d with
  | [] => [(k, v)]
  | (k', v') :: rest =>
      if same_or_eq k' k then (k', v) :: rest else (k', v') :: pydict_set rest k v
  end.

Fixpoint pydict_find (d : pydict) (k : json) : option json :=
  match d with
  | [] => None
  | (k', v) :: rest => if same_or_eq k' k then Some v else pydict_find rest k
  end.

(** [d[k]]: TypeError on an unhashable key, KeyError on a missing one. *)
Definition pydict_get (d : pydict) (k : json) : result json :=
  if hashable k then
    match pydict_find d k with
    | Some v => Ok v
    | None => Err KeyError
    end
  else Err TypeError.

(* ================================================================== *)
(** * [datetime]: [strptime], [timedelta], [+] and [isoformat] *)

Module PyDatetime.

(** A naive [datetime] (no [tzinfo]): the format below reads the trailing
    "Z" as a literal, not as an offset. *)
Record datetime : Type := mk_datetime {
  dt_year : Z; dt_month : Z; dt_day : Z;
  dt_hour : Z; dt_minute : Z; dt_second : Z; dt_microsecond : Z
}.

Definition is_leap (y : Z) : bool :=
  (y mod 4 =? 0) && (negb (y mod 100 =? 0) || (y mod 400 =? 0)).

Definition days_in_month (y m : Z) : Z :=
  match m with
  | 1 => 31 | 2 => if is_leap y then 29 else 28 | 3 => 31 | 4 => 30
  | 5 => 31 | 6 => 30 | 7 => 31 | 8 => 31 | 9 => 30 | 10 => 31
  | 11 => 30 | 12 => 31 | _ => 0
  end.

Definition days_before_month (y m : Z) : Z :=
  (match m with
   | 1 => 0 | 2 => 31 | 3 => 59 | 4 => 90 | 5 => 120 | 6 => 151
   | 7 => 181 | 8 => 212 | 9 => 243 | 10 => 273 | 11 => 304 | 12 => 334
   | _ => -1
   end) + (if (2 <? m) && is_leap y then 1 else 0).

Definition days_before_year (y : Z) : Z :=
  let y1 := y - 1 in y1 * 365 + y1 / 4 - y1 / 100 + y1 / 400.

(** [date.toordinal]: 1 is 0001-01-01. *)
Definition ymd2ord (y m d : Z) : Z :=
  days_before_year y + days_before_month y m + d.

Definition DI400Y : Z := 146097.
Definition DI100Y : Z := 36524.
Definition DI4Y : Z := 1461.
Definition MAXORDINAL : Z := 3652059.

(** [date.fromordinal], after [_ord2ymd]. *)
Definition ord2ymd (n0 : Z) : Z * Z * Z :=
  let n := n0 - 1 in
  let n400 := n / DI400Y in
  let n := n mod DI400Y in
  let year := n400 * 400 + 1 in
  let n100 := n / DI100Y in
  let n := n mod DI100Y in
  let n4 := n / DI4Y in
  let n := n mod DI4Y in
  let n1 := n / 365 in
  let n := n mod 365 in
  let year := year + n100 * 100 + n4 * 4 + n1 in
  if (n1 =? 4) || (n100 =? 4) then (year - 1, 12, 31)
  else
    let leapyear := (n1 =? 3) && (negb (n4 =? 24) || (n100 =? 3)) in
    let month := Z.shiftr (n + 50) 5 in
    let preceding := days_before_month year month in
    if n <? preceding then
      let month := month - 1 in
      let preceding := preceding - (days_in_month year month) in
      (year, month, n - preceding + 1)
    else (year, month, n - preceding + 1).

(** ** Parsing with the format ["%Y-%m-%dT%H:%M:%S.%fZ"]

    [strptime] compiles the format to the regular expression
    [(\d\d\d\d)-(1[0-2]|0[1-9]|[1-9])-(3[0-1]|[1-2]\d|0[1-9]|[1-9]| [1-9])T]
    [(2[0-3]|[0-1]\d|\d):([0-5]\d|\d):(6[0-1]|[0-5]\d|\d)\.([0-9]{1,6})Z],
    case-insensitive, matched at the start of the string.  A matcher is a
    function from the input to the ordered list of its possible matches
    (value, rest), ordered as the backtracking engine tries them. *)

Definition matcher (A : Type) : Type := string -> list (A * string).

Definition digit_of (c : ascii) : option Z :=
  let n := Z.of_N (N_of_ascii c) in
  if (48 <=? n) && (n <=? 57) then Some (n - 48) else None.

Definition m_ret {A : Type} (a : A) : matcher A := fun s => [(a, s)].

Definition m_bind {A B : Type} (m : matcher A) (k : A -> matcher B) : matcher B :=
  fun s => flat_map (fun r => k (fst r) (snd r)) (m s).

Definition m_alt {A : Type} (m1 m2 : matcher A) : matcher A :=
  fun s => m1 s ++ m2 s.

Definition m_fail {A : Type} : matcher A := fun _ => [].

(** One digit whose value is between [lo] and [hi]. *)
Definition m_digit (lo hi : Z) : matcher Z :=
  fun s =>
    match s with
    | String c rest =>
        match digit_of c with
        | Some d => if (lo <=? d) && (d <=? hi) then [(d, rest)] else []
        | None => []
        end
    | EmptyString => []
    end.

(** A literal character; letters match in either case. *)
Definition m_char (c : ascii) : matcher unit :=
  fun s =>
    match s with
    | String c' rest => if Ascii.eqb c' c then [(tt, rest)] else []
    | EmptyString => []
    end.

Definition m_letter (upper lower : ascii) : matcher unit :=
  m_alt (m_char upper) (m_char lower).

(** Two digits, the first in [[a1,a2]] and the second in [[b1,b2]]. *)
Definition m_two (a1 a2 b1 b2 : Z) : matcher Z :=
  m_bind (m_digit a1 a2) (fun a => m_bind (m_digit b1 b2) (fun b => m_ret (10 * a + b))).

Definition m_Y : matcher Z :=
  m_bind (m_digit 0 9) (fun a => m_bind (m_digit 0 9) (fun b =>
  m_bind (m_digit 0 9) (fun c => m_bind (m_digit 0 9) (fun d =>
  m_ret (1000 * a + 100 * b + 10 * c + d))))).

Definition m_m : matcher Z :=
  m_alt (m_two 1 1 0 2) (m_alt (m_two 0 0 1 9) (m_digit 1 9)).

Definition m_d : matcher Z :=
  m_alt (m_two 3 3 0 1) (m_alt (m_two 1 2 0 9) (m_alt (m_two 0 0 1 9)
  (m_alt (m_digit 1 9) (m_bind (m_char " "%char) (fun _ => m_digit 1 9))))).

Definition m_H : matcher Z :=
  m_alt (m_two 2 2 0 3) (m_alt (m_two 0 1 0 9) (m_digit 0 9)).

Definition m_M : matcher Z :=
  m_alt (m_two 0 5 0 9) (m_digit 0 9).

Definition m_S : matcher Z :=
  m_alt (m_two 6 6 0 1) (m_alt (m_two 0 5 0 9) (m_digit 0 9)).

(** [[0-9]{1,6}], greedy; the digits read are padded with zeros on the right
    to six, so the value is in microseconds.  [k] digits may still be read,
    each worth [w] in the next position. *)
Fixpoint m_frac (k : nat) (w : Z) (acc : Z) : matcher Z :=
  match k with
  | O => m_ret acc
  | S k' =>
      m_alt (m_bind (m_digit 0 9) (fun d => m_frac k' (w / 10) (acc + d * w)))
            (m_ret acc)
  end.

Definition m_f : matcher Z :=
  m_bind (m_digit 0 9) (fun d => m_frac 5 10000 (d * 100000)).

Definition m_timestamp : matcher datetime :=
  m_bind m_Y (fun y => m_bind (m_char "-"%char) (fun _ =>
  m_bind m_m (fun mo => m_bind (m_char "-"%char) (fun _ =>
  m_bind m_d (fun d => m_bind (m_letter "T"%char "t"%char) (fun _ =>
  m_bind m_H (fun h => m_bind (m_char ":"%char) (fun _ =>
  m_bind m_M (fun mi => m_bind (m_char ":"%char) (fun _ =>
  m_bind m_S (fun se => m_bind (m_char "."%char) (fun _ =>
  m_bind m_f (fun us => m_bind (m_letter "Z"%char "z"%char) (fun _ =>
  m_ret (mk_datetime y mo d h mi se us))))))))))))))).

(** The constructor's range checks. *)
Definition valid_datetime (t : datetime) : bool :=
  (1 <=? dt_year t) && (dt_year t <=? 9999) &&
  (1 <=? dt_month t) && (dt_month t <=? 12) &&
  (1 <=? dt_day t) && (dt_day t <=? days_in_month (dt_year t) (dt_month t)) &&
  (0 <=? dt_hour t) && (dt_hour t <=? 23) &&
  (0 <=? dt_minute t) && (dt_minute t <=? 59) &&
  (0 <=? dt_second t) && (dt_second t <=? 59) &&
  (0 <=? dt_microsecond t) && (dt_microsecond t <=? 999999).

(** [datetime.strptime(v, "%Y-%m-%dT%H:%M:%S.%fZ")]: the first match of the
    expression must end where the string ends ("unconverted data remains"
    otherwise), and the fields must make a date. *)
Definition strptime (v : json) : result datetime :=
  match v with
  | JStr s =>
      match m_timestamp s with
      | (t, EmptyString) :: _ => if valid_datetime t then Ok t else Err ValueError
      | _ => Err ValueError
      end
  | _ => Err TypeError
  end.

(** ** [timedelta(seconds=v)], in microseconds *)

Definition US_PER_SECOND : Z := 1000000.
Definition US_PER_DAY : Z := 86400 * US_PER_SECOND.
Definition MAX_DELTA_DAYS : Z := 999999999.

Definition check_delta (us : Z) : result Z :=
  if MAX_DELTA_DAYS <? Z.abs (us / US_PER_DAY) then Err OverflowError else Ok us.

(** A float is split by [modf]; its whole part counts seconds and its
    fraction, times [1e6] in floating point, is rounded to microseconds. *)
Definition timedelta_seconds (v : json) : result Z :=
  match as_num v with
  | Some (NInt z) => check_delta (z * US_PER_SECOND)
  | Some (NFloat f) =>
      whole <- trunc_float f ;;
      let frac := PrimFloat.sub f (SF2Prim (binary_normalize prec emax whole 0 false)) in
      let usdouble := PrimFloat.mul frac 1000000%float in
      check_delta (whole * US_PER_SECOND + round_half_even usdouble)
  | None => Err TypeError
  end.

(** [t + timedelta]: OverflowError outside years 1..9999. *)
Definition datetime_add (t : datetime) (delta_us : Z) : result datetime :=
  let secs := dt_hour t * 3600 + dt_minute t * 60 + dt_second t in
  let total :=
    (ymd2ord (dt_year t) (dt_month t) (dt_day t) * 86400 + secs) * US_PER_SECOND
    + dt_microsecond t + delta_us in
  let days := total / US_PER_DAY in
  let rem := total mod US_PER_DAY in
  let s := rem / US_PER_SECOND in
  if (0 <? days) && (days <=? MAXORDINAL) && (Z.abs days <=? MAX_DELTA_DAYS) then
    let '(y, m, d) := ord2ymd days in
    Ok (mk_datetime y m d (s / 3600) ((s mod 3600) / 60) (s mod 60)
                    (rem mod US_PER_SECOND))
  else Err OverflowError.

(** ** [isoformat()] *)

Definition digit_char (d : Z) : ascii := ascii_of_N (Z.to_N (48 + d mod 10)).

(** [%0wd] of a number [0 <= z < 10^w]. *)
Fixpoint zero_padded (w : nat) (z : Z) : string :=
  match w with
  | O => EmptyString
  | S w' => (zero_padded w' (z / 10) ++ String (digit_char z) EmptyString)%string
  end.

(** [YYYY-MM-DDTHH:MM:SS], and [.ffffff] when the microsecond is not zero;
    a naive datetime has no offset to print. *)
Definition isoformat (t : datetime) : string :=
  (zero_padded 4 (dt_year t) ++ "-" ++ zero_padded 2 (dt_month t) ++ "-" ++
   zero_padded 2 (dt_day t) ++ "T" ++ zero_padded 2 (dt_hour t) ++ ":" ++
   zero_padded 2 (dt_minute t) ++ ":" ++ zero_padded 2 (dt_second t) ++
   (if (dt_microsecond t =? 0)%Z then ""
    else "." ++ zero_padded 6 (dt_microsecond t)))%string.

End PyDatetime.
Import PyDatetime.

(* ================================================================== *)
(** * Python's [list.sort] and [sorted] *)

Section PySort.
Context {K A : Type}.
Variable lt : K -> K -> bool.

(** The sort is stable: an item goes in front of the first item whose key
    is not smaller than its own. *)
Fixpoint insert_keyed (x : K * A) (l : list (K * A)) : list (K * A) :=
  match l with
  | [] => [x]
  | y :: l' => if lt (fst y) (fst x) then y :: insert_keyed x l' else x :: y :: l'
  end.

Definition sort_keyed (l : list (K * A)) : list (K * A) :=
  fold_right insert_keyed [] l.

(** With [reverse=True] the list is reversed, sorted and reversed again,
    which keeps the items of equal key in their original order. *)
Definition py_sort (reverse : bool) (l : list (K * A)) : list (K * A) :=
  if reverse then rev (sort_keyed (rev l)) else sort_keyed l.
End PySort.

(** [<] on lists of integers ([list.__lt__]). *)
Fixpoint lex_lt (a b : list Z) : bool :=
  match a, b with
  | [], [] => false
  | [], _ :: _ => true
  | _ :: _, [] => false
  | x :: a', y :: b' => if x =? y then lex_lt a' b' else x <? y
  end.

(** [<] on [bool]: [False < True]. *)
Definition bool_lt (a b : bool) : bool := negb a && b.

(* ================================================================== *)
(** * Archive reader *)

(** An archive is the list of its entries in directory order, each with its
    name and the document its bytes decode to ([None]: the bytes are not a
    JSON document). *)
Definition archive : Type := list (string * option json).

Definition newline : ascii := ascii_of_nat 10.

(** [pattern = r"data/(.+?)\.json"], searched with [re.search]: the match
    starts at the leftmost possible position and the group is as short as
    possible there; [.] matches everything but a newline.  [lazy_group s] is
    the group when the text after ["data/"] is [s]. *)
Fixpoint lazy_group (s : string) : option string :=
  match s with
  | EmptyString => None
  | String c rest =>
      if Ascii.eqb c newline then None
      else if String.prefix ".json" rest then Some (String c EmptyString)
      else option_map (String c) (lazy_group rest)
  end.

Fixpoint strip_prefix (p s : string) : option string :=
  match p with
  | EmptyString => Some s
  | String a p' =>
      match s with
      | String b s' => if Ascii.eqb a b then strip_prefix p' s' else None
      | EmptyString => None
      end
  end.

Definition match_here (s : string) : option string :=
  match strip_prefix "data/" s with
  | Some rest => lazy_group rest
  | None => None
  end.

(** [re.search(pattern, s)], as [match.group(1)]. *)
Fixpoint re_search (s : string) : option string :=
  match match_here s with
  | Some g => Some g
  | None =>
      match s with
      | EmptyString => None
      | String _ rest => re_search rest
      end
  end.

(** [s.split(sep)]. *)
Fixpoint split_on (sep : ascii) (s : string) : list string :=
  match s with
  | EmptyString => [EmptyString]
  | String c rest =>
      if Ascii.eqb c sep then EmptyString :: split_on sep rest
      else match split_on sep rest with
           | h :: t => String c h :: t
           | [] => [String c EmptyString]
           end
  end.

(** [int(s)] on a string without underscores: optional white space, an
    optional sign, decimal digits, optional white space.  (The interpreter's
    configurable cap on the number of digits is left out.) *)
Definition is_space (c : ascii) : bool :=
  let n := Z.of_N (N_of_ascii c) in
  ((9 <=? n) && (n <=? 13)) || (n =? 32) || (n =? 133) || (n =? 160).

Fixpoint skip_spaces (s : string) : string :=
  match s with
  | String c rest => if is_space c then skip_spaces rest else s
  | EmptyString => s
  end.

(** The digits read so far are worth [acc]; [seen] tells whether there is one. *)
Fixpoint read_digits (s : string) (seen : bool) (acc : Z) : result Z :=
  match s with
  | String c rest =>
      match digit_of c with
      | Some d => read_digits rest true (10 * acc + d)
      | None =>
          if seen then
            match skip_spaces s with
            | EmptyString => Ok acc
            | _ => Err ValueError
            end
          else Err ValueError
      end
  | EmptyString => if seen then Ok acc else Err ValueError
  end.

Definition py_int (s : string) : result Z :=
  match skip_spaces s with
  | String "-"%char rest => z <- read_digits rest false 0 ;; Ok (- z)
  | String "+"%char rest => read_digits rest false 0
  | s' => read_digits s' false 0
  end.

(** The loop of [sort_files]: [(sequence, name)] for every entry the pattern
    is found in, in directory order. *)
Fixpoint keyed_files (file_list : list string) : result (list (list Z * string)) :=
  match file_list with
  | [] => Ok []
  | file_name :: rest =>
      match re_search file_name with
      | None => keyed_files rest
      | Some g =>
          sequence <- mapM py_int (split_on "_"%char g) ;;
          tl <- keyed_files rest ;;
          Ok ((sequence, g) :: tl)
      end
  end.

Definition sort_files (file_list : list string) : result (list string) :=
  sorted_list <- keyed_files file_list ;;
  Ok (map snd (py_sort lex_lt false sorted_list)).

Definition namelist (a : archive) : list string := map fst a.

(** [zip_ref.open(name)] and [file.read()]: of several entries with one name
    the archive serves the last; KeyError when there is none. *)
Fixpoint zip_read (a : archive) (name : string) : result (option json) :=
  match a with
  | [] => Err KeyError
  | (n, c) :: rest =>
      match zip_read rest name with
      | Ok c' => Ok c'
      | Err _ => if String.eqb n name then Ok c else Err KeyError
      end
  end.

Definition json_loads (content : option json) : result json :=
  match content with
  | Some data => Ok data
  | None => Err JSONDecodeError
  end.

Definition entry_path (file_name : string) : string :=
  ("data/" ++ file_name ++ ".json")%string.

(** One step of the generator [files_content]: the document of [file_name]. *)
Definition read_document (a : archive) (file_name : string) : result json :=
  content <- zip_read a (entry_path file_name) ;;
  json_loads content.

(* ================================================================== *)
(** * Shot extractor *)

(** A row of the table: the dict built for one shot, keys in this order. *)
Record row : Type := mk_row {
  r_season : json;
  r_tournament_id : json;
  r_draw_code : json;
  r_set : json;
  r_game : json;
  r_point : json;
  r_serve : json;
  r_rally : json;
  r_shot_n : json;
  r_hitter_external_id : json;
  r_stroke : json;
  r_spin_type : json;
  r_spin_rpm : json;
  r_call : json;
  r_shot_start_timestamp : json;
  r_shot_end_timestamp : json;
  r_ball_hit_x : json;
  r_ball_hit_y : json;
  r_ball_hit_z : json;
  r_ball_bounce_x : json;
  r_ball_bounce_y : json;
  r_hitter_x : json;
  r_hitter_y : json;
  r_receiver_x : json;
  r_receiver_y : json
}.

Definition fieldnames : list string :=
  ["season"; "tournament_id"; "draw_code"; "set"; "game"; "point"; "serve";
   "rally"; "shot_n"; "hitter_external_id"; "stroke"; "spin_type"; "spin_rpm";
   "call"; "shot_start_timestamp"; "shot_end_timestamp"; "ball_hit_x";
   "ball_hit_y"; "ball_hit_z"; "ball_bounce_x"; "ball_bounce_y"; "hitter_x";
   "hitter_y"; "receiver_x"; "receiver_y"].

(** The globals [match] and [players]; both are [None] before the first
    document. *)
Record metadata : Type := mk_metadata {
  md_match : json;
  md_players : option pydict
}.

Definition no_metadata : metadata := mk_metadata JNull None.

(** [{player["team"]: player for player in match["players"]}]. *)
Fixpoint players_by_team (l : list json) (d : pydict) : result pydict :=
  match l with
  | [] => Ok d
  | player :: rest =>
      team <- player.["team"] ;;
      if hashable team then players_by_team rest (pydict_set d team player)
      else Err TypeError
  end.

Definition read_metadata (data : json) : result metadata :=
  mtch <- data.["match"] ;;
  ps <- mtch.["players"] ;;
  l <- py_iter ps ;;
  players <- players_by_team l [] ;;
  Ok (mk_metadata mtch (Some players)).

(** [sample.get("event") == name]. *)
Definition event_is (sample : json) (name : string) : result bool :=
  e <- py_get sample "event" ;;
  Ok (py_eq e (JStr name)).

(** The loop over [data["samples"]], appending to [hits] and [bounces]. *)
Fixpoint split_samples (samples hits bounces : list json)
  : result (list json * list json) :=
  match samples with
  | [] => Ok (hits, bounces)
  | sample :: rest =>
      is_hit <- event_is sample "hit" ;;
      let hits := if is_hit then hits ++ [sample] else hits in
      is_bounce <- event_is sample "bounce" ;;
      let bounces := if is_bounce then bounces ++ [sample] else bounces in
      split_samples rest hits bounces
  end.

(** [hit["time"] < x["time"] < hit["time"] + duration]: the second
    comparison, and the sum it needs, are evaluated only when the first
    holds. *)
Definition in_window (hit duration x : json) : result bool :=
  h <- hit.["time"] ;;
  t <- x.["time"] ;;
  after <- py_lt h t ;;
  if after then
    h' <- hit.["time"] ;;
    stop <- py_add h' duration ;;
    py_lt t stop
  else Ok false.

(** [next((x for x in bounces if ...), None)]. *)
Fixpoint find_bounce (hit duration : json) (bounces : list json)
  : result (option json) :=
  match bounces with
  | [] => Ok None
  | x :: rest =>
      inside <- in_window hit duration x ;;
      if inside then Ok (Some x) else find_bounce hit duration rest
  end.

(** [sorted(hit["players"], key=lambda x: x["team"] == shot["team"],
    reverse=True)]. *)
Definition player_key (shot x : json) : result (bool * json) :=
  xt <- x.["team"] ;;
  st <- shot.["team"] ;;
  Ok (py_eq xt st, x).

Definition sorted_players (hit shot : json) : result (list json) :=
  ps <- hit.["players"] ;;
  l <- py_iter ps ;;
  keyed <- mapM (player_key shot) l ;;
  Ok (map snd (py_sort bool_lt true keyed)).

(** [bounce["ball"]["pos"] if bounce else {"x": "", "y": ""}]. *)
Definition no_bounce_ball : json := JObj [("x", JStr ""); ("y", JStr "")].

Definition bounce_ball_of (bounce : option json) : result json :=
  match bounce with
  | Some b =>
      if py_truthy b then ball <- b.["ball"] ;; ball.["pos"]
      else Ok no_bounce_ball
  | None => Ok no_bounce_ball
  end.

Definition players_get (players : option pydict) (team : json) : result json :=
  match players with
  | Some d => pydict_get d team
  | None => Err TypeError
  end.

(** The entries of the row dict from ["season"] to ["ball_bounce_y"], in the
    order the dict display evaluates them; the four player entries are
    still to come. *)
Definition row_head (md : metadata) (sequences shot shot_n timestamp : json)
    (end_time : string) (hit_ball bounce_ball : json)
  : result (json -> json -> json -> json -> row) :=
  season <- (md_match md).["season"] ;;
  tournament_id <- (md_match md).["tournament_id"] ;;
  draw_code <- (md_match md).["draw_code"] ;;
  set <- sequences.["set"] ;;
  game <- sequences.["game"] ;;
  point <- sequences.["point"] ;;
  serve <- sequences.["serve"] ;;
  rally <- sequences.["rally"] ;;
  team <- shot.["team"] ;;
  player <- players_get (md_players md) team ;;
  external_id <- player.["external_id"] ;;
  stroke <- shot.["stroke"] ;;
  spin <- shot.["spin"] ;;
  spin_type <- spin.["type"] ;;
  spin' <- shot.["spin"] ;;
  spin_rpm <- spin'.["rpm"] ;;
  call <- shot.["call"] ;;
  hx <- hit_ball.["x"] ;;
  hy <- hit_ball.["y"] ;;
  hz <- hit_ball.["z"] ;;
  bx <- bounce_ball.["x"] ;;
  by_ <- bounce_ball.["y"] ;;
  Ok (mk_row season tournament_id draw_code set game point serve rally shot_n
             external_id stroke spin_type spin_rpm call timestamp
             (JStr end_time) hx hy hz bx by_).

(** [hit_players_positions[i]["pos"][axis]]. *)
Definition position_of (positions : list json) (i : Z) (axis : string)
  : result json :=
  p <- list_index positions i ;;
  pos <- p.["pos"] ;;
  pos.[axis].

(** [(start_time + timedelta(seconds=duration)).isoformat() + "Z"]. *)
Definition end_time_of (timestamp duration : json) : result string :=
  start_time <- strptime timestamp ;;
  delta <- timedelta_seconds duration ;;
  stop <- datetime_add start_time delta ;;
  Ok (isoformat stop ++ "Z")%string.

(** The body of the loop over the shots, once the shot has passed the
    guard. *)
Definition build_row (md : metadata) (sequences : json)
    (hits bounces : list json) (shot shot_n : json) : result row :=
  timestamp <- shot.["time_utc"] ;;
  duration <- shot.["duration"] ;;
  end_time <- end_time_of timestamp duration ;;
  hit <- py_index_pred hits shot_n ;;
  bounce <- find_bounce hit duration bounces ;;
  hit_players_positions <- sorted_players hit shot ;;
  ball <- hit.["ball"] ;;
  hit_ball <- ball.["pos"] ;;
  bounce_ball <- bounce_ball_of bounce ;;
  head <- row_head md sequences shot shot_n timestamp end_time hit_ball bounce_ball ;;
  hitter_x <- position_of hit_players_positions 0 "x" ;;
  hitter_y <- position_of hit_players_positions 0 "y" ;;
  receiver_x <- position_of hit_players_positions 1 "x" ;;
  receiver_y <- position_of hit_players_positions 1 "y" ;;
  Ok (head hitter_x hitter_y receiver_x receiver_y).

(** One shot: [None] when the guard [shot_n > len(hits)] skips it. *)
Definition process_shot (md : metadata) (sequences : json)
    (hits bounces : list json) (shot : json) : result (option row) :=
  shot_n <- shot.["shot_no"] ;;
  skip <- py_gt_len shot_n (length hits) ;;
  if skip then Ok None
  else r <- build_row md sequences hits bounces shot shot_n ;; Ok (Some r).

(** The loop over [data["shots"]]; [rows] is the global list so far. *)
Fixpoint process_shots (md : metadata) (sequences : json)
    (hits bounces : list json) (shots : list json) (rows : list row)
  : result (list row) :=
  match shots with
  | [] => Ok rows
  | shot :: rest =>
      r <- process_shot md sequences hits bounces shot ;;
      process_shots md sequences hits bounces rest
        (match r with Some x => rows ++ [x] | None => rows end)
  end.

(** The body of the loop over the documents, after the metadata. *)
Definition process_document (md : metadata) (data : json) (rows : list row)
  : result (list row) :=
  sequences <- data.["sequences"] ;;
  ss <- data.["samples"] ;;
  samples <- py_iter ss ;;
  '(hits, bounces) <- split_samples samples [] [] ;;
  sh <- data.["shots"] ;;
  shots <- py_iter sh ;;
  process_shots md sequences hits bounces shots rows.

(** The main loop: the documents are read one by one, in the order of
    [sort_files], interleaved with their processing; the document of index 0
    sets the metadata. *)
Fixpoint process_files (a : archive) (names : list string) (index : nat)
    (md : metadata) (rows : list row) : result (list row) :=
  match names with
  | [] => Ok rows
  | name :: rest =>
      data <- read_document a name ;;
      md' <- (if Nat.eqb index 0 then read_metadata data else Ok md) ;;
      rows' <- process_document md' data rows ;;
      process_files a rest (S index) md' rows'
  end.

Definition extract_rows (a : archive) : result (list row) :=
  names <- sort_files (namelist a) ;;
  process_files a names 0 no_metadata [].

(* ================================================================== *)
(** * Row writer *)

(** What the run leaves in [result.csv]: the records handed to the writer. *)
Inductive csv_record : Type :=
| Header (names : list string)
| Line (r : row).

(** [None]: the file was never opened; [Some recs]: it was opened for
    writing (created or emptied) and [recs] were written to it. *)
Definition output_file : Type := option (list csv_record).

(** The script as a whole: the outcome of the run and the output file.  The
    file is opened before [rows[0]] is looked at. *)
Definition main (a : archive) : result unit * output_file :=
  match extract_rows a with
  | Err e => (Err e, None)
  | Ok rows =>
      let file : output_file := Some [] in
      match rows with
      | [] => (Err IndexError, file)
      | _ :: _ => (Ok tt, Some (Header fieldnames :: map Line rows))
      end
  end.

(* ================================================================== *)
(** * Vocabulary of the properties *)


(** A sample counts as tagged [name] when it is a dict whose ["event"] is
    [name]. *)
Definition tagged (name : string) (sample : json) : bool :=
  match event_is sample name with
  | Ok b => b
  | Err _ => false
  end.

(** The hit-tagged and the bounce-tagged samples, in sample order. *)
Definition hit_samples (samples : list json) : list json :=
  filter (tagged "hit") samples.

Definition bounce_samples (samples : list json) : list json :=
  filter (tagged "bounce") samples.

(** The document [kvs] with the value of key [k] replaced by [v]. *)
Fixpoint dict_set (kvs : list (string * json)) (k : string) (v : json)
  : list (string * json) :=
  match kvs with
  | [] => []
  | (k', v') :: rest =>
      if String.eqb k' k then (k', v) :: rest else (k', v') :: dict_set rest k v
  end.

(** The parts of a document the extractor reads. *)
Definition document_parts (data sequences : json) (samples shots : list json)
  : Prop :=
  data.["sequences"] = Ok sequences /\
  (exists ss, data.["samples"] = Ok ss /\ py_iter ss = Ok samples) /\
  (exists sh, data.["shots"] = Ok sh /\ py_iter sh = Ok shots).

(** ** Sample documents

    The round-trip scenario: one match with two players, one document with
    one hit sample (time 10, ball at (1,2,3)), one bounce sample (time
    10.5, ball at (4,5,0)) and one shot (number 1, team A, one second long). *)

Definition player_entry (team external_id : string) : json :=
  JObj [("team", JStr team); ("external_id", JStr external_id)].

Definition position_entry (team : string) (x y : Z) : json :=
  JObj [("team", JStr team); ("pos", JObj [("x", JInt x); ("y", JInt y)])].

Definition sample_entry (event : string) (time : json) (x y z : Z)
    (players : list json) : json :=
  JObj [("event", JStr event); ("time", time);
        ("ball", JObj [("pos", JObj [("x", JInt x); ("y", JInt y); ("z", JInt z)])]);
        ("players", JArr players)].

Definition shot_entry (shot_no : Z) (team time_utc : string) (duration : json)
  : json :=
  JObj [("shot_no", JInt shot_no); ("team", JStr team);
        ("time_utc", JStr time_utc); ("duration", duration);
        ("stroke", JStr "forehand");
        ("spin", JObj [("type", JStr "topspin"); ("rpm", JInt 1800)]);
        ("call", JStr "in")].

Definition match_entry : json :=
  JObj [("season", JInt 2023); ("tournament_id", JStr "T1");
        ("draw_code", JStr "MS");
        ("players", JArr [player_entry "A" "player-a"; player_entry "B" "player-b"])].

Definition sequences_entry (point : Z) : json :=
  JObj [("set", JInt 1); ("game", JInt 1); ("point", JInt point);
        ("serve", JInt 1); ("rally", JInt 1)].

Definition document_items (point : Z) (samples shots : list json)
  : list (string * json) :=
  [("match", match_entry); ("sequences", sequences_entry point);
   ("samples", JArr samples); ("shots", JArr shots)].

Definition document (point : Z) (samples shots : list json) : json :=
  JObj (document_items point samples shots).

Definition two_players : list json :=
  [position_entry "B" 7 8; position_entry "A" 5 6].

Definition scenario_hit : json := sample_entry "hit" (JInt 10) 1 2 3 two_players.

Definition scenario_bounce : json :=
  sample_entry "bounce" (JFloat 10.5) 4 5 0 two_players.

Definition scenario_samples : list json := [scenario_hit; scenario_bounce].

Definition scenario_time : string := "2023-01-01T00:00:00.000000Z".

Definition scenario_shot : json := shot_entry 1 "A" scenario_time (JInt 1).

Definition scenario_doc : json := document 1 scenario_samples [scenario_shot].

Definition scenario_archive : archive := [("data/1.json", Some scenario_doc)].

(** The metadata the run holds after reading the scenario document. *)
Definition scenario_metadata : metadata :=
  mk_metadata match_entry
    (Some [(JStr "A", player_entry "A" "player-a");
           (JStr "B", player_entry "B" "player-b")]).

(** The row of the scenario. *)
Definition scenario_row : row :=
  {| r_season := JInt 2023; r_tournament_id := JStr "T1"; r_draw_code := JStr "MS";
     r_set := JInt 1; r_game := JInt 1; r_point := JInt 1; r_serve := JInt 1;
     r_rally := JInt 1; r_shot_n := JInt 1;
     r_hitter_external_id := JStr "player-a"; r_stroke := JStr "forehand";
     r_spin_type := JStr "topspin"; r_spin_rpm := JInt 1800; r_call := JStr "in";
     r_shot_start_timestamp := JStr scenario_time;
     r_shot_end_timestamp := JStr "2023-01-01T00:00:01Z";
     r_ball_hit_x := JInt 1; r_ball_hit_y := JInt 2; r_ball_hit_z := JInt 3;
     r_ball_bounce_x := JInt 4; r_ball_bounce_y := JInt 5;
     r_hitter_x := JInt 5; r_hitter_y := JInt 6;
     r_receiver_x := JInt 7; r_receiver_y := JInt 8 |}.

(** Row [r] was built for [shot], a shot of a document of the archive with
    these parts, the hit being chosen among the hit-tagged samples and the
    bounce among the bounce-tagged ones. *)
Definition row_of_shot (a : archive) (md : metadata) (data sequences : json)
    (samples shots : list json) (shot shot_n : json) (r : row) : Prop :=
  (exists name, read_document a name = Ok data) /\
  document_parts data sequences samples shots /\
  In shot shots /\
  shot.["shot_no"] = Ok shot_n /\
  py_gt_len shot_n (length (hit_samples samples)) = Ok false /\
  build_row md sequences (hit_samples samples) (bounce_samples samples)
            shot shot_n = Ok r.

(** The intermediate values of [build_row] behind a row. *)
Definition row_steps (md : metadata) (sequences : json)
    (hits bounces : list json) (shot shot_n : json) (r : row)
    (timestamp duration : json) (end_time : string) (hit : json)
    (bounce : option json) (positions : list json)
    (hit_ball bounce_ball : json) : Prop :=
  shot.["time_utc"] = Ok timestamp /\
  shot.["duration"] = Ok duration /\
  end_time_of timestamp duration = Ok end_time /\
  py_index_pred hits shot_n = Ok hit /\
  find_bounce hit duration bounces = Ok bounce /\
  sorted_players hit shot = Ok positions /\
  (exists ball, hit.["ball"] = Ok ball /\ ball.["pos"] = Ok hit_ball) /\
  bounce_ball_of bounce = Ok bounce_ball /\
  exists head,
    row_head md sequences shot shot_n timestamp end_time hit_ball bounce_ball
    = Ok head /\
    position_of positions 0 "x" = Ok (r_hitter_x r) /\
    position_of positions 0 "y" = Ok (r_hitter_y r) /\
    position_of positions 1 "x" = Ok (r_receiver_x r) /\
    position_of positions 1 "y" = Ok (r_receiver_y r) /\
    r = head (r_hitter_x r) (r_hitter_y r) (r_receiver_x r) (r_receiver_y r).

(** The window test of [x] was evaluated, without error, and failed. *)
Definition outside_window (hit duration x : json) : Prop :=
  in_window hit duration x = Ok false.



(** The sort key of a player position as a total function: whether its team
    is the team of the shot. *)
Definition is_hitter (shot x : json) : bool :=
  match x.["team"], shot.["team"] with
  | Ok xt, Ok st => py_eq xt st
  | _, _ => false
  end.

Definition is_receiver (shot x : json) : bool := negb (is_hitter shot x).

(** The position a player entry carries ends up in the two fields [fx], [fy]. *)
Definition position_in (p fx fy : json) : Prop :=
  exists pos, p.["pos"] = Ok pos /\ pos.["x"] = Ok fx /\ pos.["y"] = Ok fy.

(** A hit sample that lists team A only. *)
Definition lone_player_hit : json :=
  sample_entry "hit" (JInt 10) 1 2 3 [position_entry "A" 5 6].

(** The order the sort leaves the keyed files in: ascending, ties allowed. *)
Definition key_le (x y : list Z * string) : Prop := lex_lt (fst y) (fst x) = false.

Definition key_lt (x y : list Z * string) : Prop := lex_lt (fst x) (fst y) = true.

(** [==] on lists of integers. *)
Fixpoint lex_eqb (a b : list Z) : bool :=
  match a, b with
  | [], [] => true
  | x :: a', y :: b' => (x =? y) && lex_eqb a' b'
  | _, _ => false
  end.

Definition has_key (k : list Z) (x : list Z * string) : bool := lex_eqb (fst x) k.

(** The rows of one document, processed on its own with some metadata. *)
Definition document_rows (a : archive) (file_name : string) (g : list row)
  : Prop :=
  exists data md,
    read_document a file_name = Ok data /\ process_document md data [] = Ok g.

Fixpoint no_newline (s : string) : bool :=
  match s with
  | EmptyString => true
  | String c rest => negb (Ascii.eqb c newline) && no_newline rest
  end.

(** Two documents that differ in their point number, for archives whose
    entries have equal keys. *)
Definition first_doc : json := document 1 scenario_samples [scenario_shot].

Definition second_doc : json := document 2 scenario_samples [scenario_shot].

(** What one entry adds to the list [sort_files] builds. *)
Definition keyed_one (file_name : string) : result (list (list Z * string)) :=
  match re_search file_name with
  | None => Ok []
  | Some g => sequence <- mapM py_int (split_on "_"%char g) ;; Ok [(sequence, g)]
  end.

(** Two documents the run cannot tell apart: same metadata when read first,
    same rows appended whatever the metadata. *)
Definition same_outcome_docs (d d' : json) : Prop :=
  read_metadata d' = read_metadata d /\
  forall md rows, process_document md d' rows = process_document md d rows.

(** ** Vocabulary of the further properties *)

(** Whether the pattern is found in the name of an entry. *)
Definition name_matches (e : string * option json) : bool :=
  match re_search (fst e) with
  | Some _ => true
  | None => false
  end.

(** The entries [sort_files] does not skip. *)
Definition matching_entries (a : archive) : archive := filter name_matches a.

(** The groups of the names the pattern is found in, in directory order. *)
Definition found_groups (names : list string) : list string :=
  flat_map (fun n => match re_search n with
                     | Some g => [g]
                     | None => []
                     end) names.


(** A group without newline and without dot, and not empty: what the
    documented names [data/<seq>.json] carry. *)
Fixpoint no_dot (s : string) : bool :=
  match s with
  | EmptyString => true
  | String c rest => negb (Ascii.eqb c "."%char) && no_dot rest
  end.

Definition plain_group (g : string) : bool :=
  negb (String.eqb g "") && no_newline g && no_dot g.




(** The shots the guard lets through: [shot_no] is there, is a number and
    does not exceed the number of hits. *)
Definition kept (hits : list json) (shot : json) : bool :=
  match shot.["shot_no"] with
  | Ok n =>
      match py_gt_len n (length hits) with
      | Ok false => true
      | _ => false
      end
  | Err _ => false
  end.

(** Whether the team of a roster entry is the string [s]. *)
Definition team_is (s : string) (player : json) : bool :=
  match player.["team"] with
  | Ok (JStr t) => String.eqb t s
  | _ => false
  end.

(** The last item of a list. *)
Definition last_of {A : Type} (l : list A) : option A := hd_error (rev l).

(** An archive whose only hit sample lists two players of teams other than
    the team of the shot, and the row it gives. *)
Definition strangers_archive : archive :=
  [("data/1.json",
    Some (document 1
            [sample_entry "hit" (JInt 10) 1 2 3
               [position_entry "B" 7 8; position_entry "C" 5 6]]
            [shot_entry 1 "A" scenario_time (JInt 1)]))].

Definition strangers_row : row :=
  {| r_season := JInt 2023; r_tournament_id := JStr "T1"; r_draw_code := JStr "MS";
     r_set := JInt 1; r_game := JInt 1; r_point := JInt 1; r_serve := JInt 1;
     r_rally := JInt 1; r_shot_n := JInt 1;
     r_hitter_external_id := JStr "player-a"; r_stroke := JStr "forehand";
     r_spin_type := JStr "topspin"; r_spin_rpm := JInt 1800; r_call := JStr "in";
     r_shot_start_timestamp := JStr scenario_time;
     r_shot_end_timestamp := JStr "2023-01-01T00:00:01Z";
     r_ball_hit_x := JInt 1; r_ball_hit_y := JInt 2; r_ball_hit_z := JInt 3;
     r_ball_bounce_x := JStr ""; r_ball_bounce_y := JStr "";
     r_hitter_x := JInt 7; r_hitter_y := JInt 8;
     r_receiver_x := JInt 5; r_receiver_y := JInt 6 |}.

(* ================================================================== *)
(** * Properties *)

(** ** The embedding on concrete values *)

Example re_search_examples :
  re_search "data/1_2_3.json" = Some "1_2_3" /\
  re_search "data/.json" = None /\
  re_search "manifest.json" = None /\
  re_search "data/" = None /\
  re_search "data/a.json.json" = Some "a".
Proof. repeat split; reflexivity. Qed.

Example py_int_examples :
  py_int "12" = Ok 12 /\ py_int " -007 " = Ok (-7) /\ py_int "+5" = Ok 5 /\
  py_int "" = Err ValueError /\ py_int "." = Err ValueError /\
  py_int "1 2" = Err ValueError /\ py_int "- 1" = Err ValueError.
Proof. repeat split; reflexivity. Qed.

Example sort_files_examples :
  sort_files ["data/2_0.json"; "data/1_0.json"] = Ok ["1_0"; "2_0"] /\
  sort_files ["data/10.json"; "notes.txt"; "data/9.json"; "data/9_1.json"]
  = Ok ["9"; "9_1"; "10"] /\
  sort_files ["data/x.json"] = Err ValueError.
Proof. repeat split; vm_compute; reflexivity. Qed.

Example strptime_examples :
  strptime (JStr "2023-05-01T12:34:56.789012Z")
  = Ok (mk_datetime 2023 5 1 12 34 56 789012) /\
  strptime (JStr "2024-2-29t3:4:5.5z") = Ok (mk_datetime 2024 2 29 3 4 5 500000) /\
  strptime (JStr "2023-02-29T00:00:00.0Z") = Err ValueError /\
  strptime (JStr "2023-01-01T00:00:60.0Z") = Err ValueError /\
  strptime (JStr "2023-01-01T00:00:00Z") = Err ValueError /\
  strptime (JStr "2023-01-01T00:00:00.0000000Z") = Err ValueError /\
  strptime (JInt 0) = Err TypeError.
Proof. repeat split; vm_compute; reflexivity. Qed.

Example end_time_examples :
  end_time_of (JStr "2023-12-31T23:59:59.500000Z") (JFloat 0.75)
  = Ok "2024-01-01T00:00:00.250000Z" /\
  end_time_of (JStr "2023-01-01T00:00:00.000000Z") (JFloat 1.5)
  = Ok "2023-01-01T00:00:01.500000Z" /\
  end_time_of (JStr "2023-03-01T00:00:00.000000Z") (JInt (-1))
  = Ok "2023-02-28T23:59:59Z" /\
  end_time_of (JStr "9999-12-31T23:59:59.000000Z") (JInt 1) = Err OverflowError /\
  end_time_of (JStr "2023-01-01T00:00:00.000000Z") (JStr "1") = Err TypeError.
Proof. repeat split; vm_compute; reflexivity. Qed.

Example number_examples :
  py_lt (JInt 10) (JFloat 10.5) = Ok true /\
  py_lt (JFloat 9007199254740992) (JInt 9007199254740993) = Ok true /\
  py_lt (JStr "10") (JInt 11) = Err TypeError /\
  py_lt (JStr "10") (JStr "9") = Ok true /\
  py_add (JInt 10) (JFloat 0.5) = Ok (JFloat 10.5) /\
  py_add (JStr "10") (JInt 1) = Err TypeError /\
  py_eq (JInt 1) (JFloat 1) = true /\ py_eq (JBool true) (JInt 1) = true /\
  py_eq (JStr "1") (JInt 1) = false.
Proof. repeat split; vm_compute; reflexivity. Qed.

(** The scenarios: the round trip; a shot without hit sample, dropped while
    the next document is still processed; two files in reverse order. *)
Example round_trip_scenario :
  main scenario_archive = (Ok tt, Some [Header fieldnames; Line scenario_row]).
Proof. vm_compute. reflexivity. Qed.

Example empty_hits_scenario :
  main [("data/1.json", Some (document 1 [scenario_bounce] [scenario_shot]));
        ("data/2.json", Some scenario_doc)]
  = (Ok tt, Some [Header fieldnames; Line scenario_row]).
Proof. vm_compute. reflexivity. Qed.

Example multi_file_scenario :
  option_map (map (fun rec => match rec with
                              | Line r => Some (r_point r)
                              | Header _ => None
                              end))
             (snd (main [("data/2_0.json", Some second_doc);
                         ("data/1_0.json", Some first_doc)]))
  = Some [None; Some (JInt 1); Some (JInt 2)].
Proof. vm_compute. reflexivity. Qed.

(** ** The result monad *)

Lemma bind_Ok_inv {A B : Type} (c : result A) (k : A -> result B) (b : B) :
  bind c k = Ok b -> exists a, c = Ok a /\ k a = Ok b.
Proof.
  destruct c as [a | e]; cbn; intros H; [eauto | discriminate].
Qed.

Lemma bind_Ok {A B : Type} (c : result A) (k : A -> result B) (a : A) :
  c = Ok a -> bind c k = k a.
Proof. intros ->. reflexivity. Qed.

Lemma bind_Err {A B : Type} (c : result A) (k : A -> result B) (e : py_error) :
  c = Err e -> bind c k = Err e.
Proof. intros ->. reflexivity. Qed.

(** Splits a successful chain [x <- c ;; k] into its steps. *)
Ltac inv_bind H :=
  repeat match type of H with
         | bind _ _ = Ok _ =>
             let x := fresh "x" in
             let E := fresh "E" in
             apply bind_Ok_inv in H; destruct H as (x & E & H)
         end.

(** ** Documents *)

Lemma dict_lookup_set_other kvs k v k' :
  String.eqb k k' = false ->
  dict_lookup (dict_set kvs k v) k' = dict_lookup kvs k'.
Proof.
  intros Hk. induction kvs as [| [k0 v0] rest IH]; cbn; [reflexivity |].
  destruct (String.eqb k0 k) eqn:E0; cbn.
  - apply String.eqb_eq in E0. subst k0. rewrite Hk. reflexivity.
  - rewrite IH. reflexivity.
Qed.

Lemma dict_lookup_set_same kvs k v v0 :
  dict_lookup kvs k = Some v0 ->
  dict_lookup (dict_set kvs k v) k = Some v.
Proof.
  induction kvs as [| [k1 v1] rest IH]; cbn; [discriminate |].
  destruct (String.eqb k1 k) eqn:E1; cbn; rewrite E1; auto.
Qed.

(** The two lists the sample loop builds are the tagged samples, in order. *)
Lemma split_samples_spec samples :
  forall hits bounces hits' bounces',
    split_samples samples hits bounces = Ok (hits', bounces') ->
    hits' = hits ++ hit_samples samples /\
    bounces' = bounces ++ bounce_samples samples.
Proof.
  induction samples as [| s rest IH]; cbn; intros hits bounces hits' bounces' H.
  - inversion H. now rewrite !app_nil_r.
  - inv_bind H. apply IH in H. destruct H as [-> ->].
    unfold hit_samples, bounce_samples, tagged; cbn. rewrite E, E0.
    destruct x, x0; cbn; rewrite <- ?app_assoc; auto.
Qed.


(** ** The loop over the shots *)

Lemma process_shots_app md seqs hits bounces l1 :
  forall l2 rows,
    process_shots md seqs hits bounces (l1 ++ l2) rows =
    (rows1 <- process_shots md seqs hits bounces l1 rows ;;
     process_shots md seqs hits bounces l2 rows1).
Proof.
  induction l1 as [| s l1 IH]; cbn; intros l2 rows; [reflexivity |].
  destruct (process_shot md seqs hits bounces s) as [r | e]; cbn; auto.
Qed.

(** The loop only appends to the rows it starts from. *)
Lemma process_shots_acc md seqs hits bounces l :
  forall rows0 rows,
    process_shots md seqs hits bounces l rows0 = Ok rows <->
    exists new, process_shots md seqs hits bounces l [] = Ok new /\
                rows = rows0 ++ new.
Proof.
  induction l as [| s l IH]; cbn; intros rows0 rows.
  - split.
    + intros H. inversion H. exists []. now rewrite app_nil_r.
    + intros (new & H & ->). inversion H. now rewrite app_nil_r.
  - destruct (process_shot md seqs hits bounces s) as [[x |] | e]; cbn.
    + split.
      * intros H. apply IH in H. destruct H as (new & H & ->).
        exists ([x] ++ new). split; [| now rewrite <- app_assoc].
        apply IH. exists new. auto.
      * intros (new & H & ->). apply IH in H. destruct H as (new' & H & ->).
        apply IH. exists new'. split; [auto | now rewrite <- app_assoc].
    + apply IH.
    + split; [discriminate | intros (new & H & _); discriminate].
Qed.

Lemma process_shot_skipped md seqs hits bounces shot z :
  shot.["shot_no"] = Ok (JInt z) ->
  Z.of_nat (length hits) < z ->
  process_shot md seqs hits bounces shot = Ok None.
Proof.
  intros Hn Hz. unfold process_shot. rewrite Hn. cbn.
  destruct (Z.ltb_spec (Z.of_nat (length hits)) z); [reflexivity | lia].
Qed.

Lemma process_shots_drop_skipped md seqs hits bounces shot before after rows :
  process_shot md seqs hits bounces shot = Ok None ->
  process_shots md seqs hits bounces (before ++ shot :: after) rows =
  process_shots md seqs hits bounces (before ++ after) rows.
Proof.
  intros H. rewrite !process_shots_app.
  destruct (process_shots md seqs hits bounces before rows); cbn; [| reflexivity].
  now rewrite H.
Qed.

(** ** One shot *)

Lemma row_head_fields md seqs shot shot_n timestamp end_time hit_ball bounce_ball head :
  row_head md seqs shot shot_n timestamp end_time hit_ball bounce_ball = Ok head ->
  forall a b c d,
    let r := head a b c d in
    r_hitter_x r = a /\ r_hitter_y r = b /\ r_receiver_x r = c /\ r_receiver_y r = d /\
    r_shot_n r = shot_n /\
    r_shot_start_timestamp r = timestamp /\
    r_shot_end_timestamp r = JStr end_time /\
    hit_ball.["x"] = Ok (r_ball_hit_x r) /\
    hit_ball.["y"] = Ok (r_ball_hit_y r) /\
    hit_ball.["z"] = Ok (r_ball_hit_z r) /\
    bounce_ball.["x"] = Ok (r_ball_bounce_x r) /\
    bounce_ball.["y"] = Ok (r_ball_bounce_y r).
Proof.
  intros H a b c d. unfold row_head in H. inv_bind H.
  inversion H; subst head; cbn. repeat split; auto.
Qed.

Lemma build_row_inv md seqs hits bounces shot shot_n r :
  build_row md seqs hits bounces shot shot_n = Ok r ->
  exists timestamp duration end_time hit bounce positions hit_ball bounce_ball,
    row_steps md seqs hits bounces shot shot_n r timestamp duration end_time
              hit bounce positions hit_ball bounce_ball.
Proof.
  intros H. unfold build_row in H. inv_bind H. inversion H; subst r.
  exists x, x0, x1, x2, x3, x4, x6, x7. unfold row_steps.
  destruct (row_head_fields _ _ _ _ _ _ _ _ _ E8 x9 x10 x11 x12)
    as (Ha & Hb & Hc & Hd & _).
  repeat (split; [assumption |]).
  split; [exists x5; auto |]. split; [assumption |].
  exists x8. rewrite Ha, Hb, Hc, Hd. repeat (split; [assumption |]). reflexivity.
Qed.

Lemma process_shot_row md seqs hits bounces shot r :
  process_shot md seqs hits bounces shot = Ok (Some r) ->
  exists shot_n,
    shot.["shot_no"] = Ok shot_n /\
    py_gt_len shot_n (length hits) = Ok false /\
    build_row md seqs hits bounces shot shot_n = Ok r.
Proof.
  intros H. unfold process_shot in H. inv_bind H.
  destruct x0; [discriminate |]. inv_bind H. inversion H; subst.
  exists x. auto.
Qed.

Lemma process_shots_provenance md seqs hits bounces shots :
  forall rows0 rows r,
    process_shots md seqs hits bounces shots rows0 = Ok rows ->
    In r rows ->
    In r rows0 \/
    exists shot, In shot shots /\
                 process_shot md seqs hits bounces shot = Ok (Some r).
Proof.
  induction shots as [| s shots IH]; cbn; intros rows0 rows r H Hr.
  - inversion H; subst. now left.
  - inv_bind H. destruct (IH _ _ _ H Hr) as [Hin | (shot & Hin & Hs)].
    + destruct x as [r' |]; [| now left].
      apply in_app_or in Hin. destruct Hin as [Hin | [-> | []]]; [now left |].
      right. exists s. auto.
    + right. exists shot. auto.
Qed.

(** ** One document *)

Lemma process_document_inv md data rows0 rows :
  process_document md data rows0 = Ok rows ->
  exists seqs samples shots,
    document_parts data seqs samples shots /\
    process_shots md seqs (hit_samples samples) (bounce_samples samples)
                  shots rows0 = Ok rows.
Proof.
  intros H. unfold process_document in H. inv_bind H.
  destruct x2 as [hits bounces]. inv_bind H.
  apply split_samples_spec in E2. cbn in E2. destruct E2 as [-> ->].
  exists x, x1, x3. split; [| assumption].
  unfold document_parts. split; [assumption |]. split; eauto.
Qed.

Lemma document_parts_fun data seqs samples shots seqs' samples' shots' :
  document_parts data seqs samples shots ->
  document_parts data seqs' samples' shots' ->
  seqs' = seqs /\ samples' = samples /\ shots' = shots.
Proof.
  intros (H1 & (ss & H2 & H3) & (sh & H4 & H5))
         (H1' & (ss' & H2' & H3') & (sh' & H4' & H5')).
  rewrite H1 in H1'. rewrite H2 in H2'. rewrite H4 in H4'.
  inversion H1'; inversion H2'; inversion H4'; subst.
  rewrite H3 in H3'. rewrite H5 in H5'. inversion H3'; inversion H5'. auto.
Qed.

(** ** Subscripting the hits *)

Lemma list_index_nonneg {A : Type} (l : list A) (i : Z) :
  0 <= i < Z.of_nat (length l) ->
  exists x, nth_error l (Z.to_nat i) = Some x /\ list_index l i = Ok x.
Proof.
  intros Hi. unfold list_index.
  destruct (Z.ltb_spec i 0); [lia |].
  destruct (Z.ltb_spec i 0); [lia |].
  destruct (Z.leb_spec (Z.of_nat (length l)) i); [lia |]. cbn.
  destruct (nth_error l (Z.to_nat i)) as [x |] eqn:E; [eauto |].
  apply nth_error_None in E. lia.
Qed.

Lemma list_index_negative {A : Type} (l : list A) (i : Z) :
  - Z.of_nat (length l) <= i < 0 ->
  exists x, nth_error l (Z.to_nat (i + Z.of_nat (length l))) = Some x /\
            list_index l i = Ok x.
Proof.
  intros Hi. unfold list_index.
  destruct (Z.ltb_spec i 0); [| lia].
  destruct (Z.ltb_spec (i + Z.of_nat (length l)) 0); [lia |].
  destruct (Z.leb_spec (Z.of_nat (length l)) (i + Z.of_nat (length l))); [lia |].
  cbn.
  destruct (nth_error l (Z.to_nat (i + Z.of_nat (length l)))) as [x |] eqn:E;
    [eauto |].
  apply nth_error_None in E. lia.
Qed.

Lemma list_index_out_of_range {A : Type} (l : list A) (i : Z) :
  i < - Z.of_nat (length l) \/ Z.of_nat (length l) <= i ->
  list_index l i = Err IndexError.
Proof.
  intros Hi. unfold list_index.
  destruct (Z.ltb_spec i 0).
  - destruct (Z.ltb_spec (i + Z.of_nat (length l)) 0); [reflexivity | lia].
  - destruct (Z.ltb_spec i 0); [lia |].
    destruct (Z.leb_spec (Z.of_nat (length l)) i); [reflexivity | lia].
Qed.

Lemma list_index_Ok_range {A : Type} (l : list A) (i : Z) (x : A) :
  list_index l i = Ok x ->
  - Z.of_nat (length l) <= i < Z.of_nat (length l).
Proof.
  intros H.
  destruct (Z_lt_le_dec i (- Z.of_nat (length l))) as [Hlo | Hlo].
  - rewrite list_index_out_of_range in H by lia. discriminate.
  - destruct (Z_lt_le_dec i (Z.of_nat (length l))) as [Hhi | Hhi]; [lia |].
    rewrite list_index_out_of_range in H by lia. discriminate.
Qed.

(** A shot with an integer [shot_no] that passes the guard, in a document
    that is processed to the end: its row is there once, between the rows
    of the shots before it and those of the shots after it, and the row's
    hit ball is that of [hits[shot_no - 1]]. *)
Lemma unskipped_shot_row md data seqs samples before shot after z rows0 rows :
  document_parts data seqs samples (before ++ shot :: after) ->
  shot.["shot_no"] = Ok (JInt z) ->
  z <= Z.of_nat (length (hit_samples samples)) ->
  process_document md data rows0 = Ok rows ->
  exists hit pos r rows1 rows2,
    list_index (hit_samples samples) (z - 1) = Ok hit /\
    (exists ball, hit.["ball"] = Ok ball /\ ball.["pos"] = Ok pos) /\
    pos.["x"] = Ok (r_ball_hit_x r) /\
    pos.["y"] = Ok (r_ball_hit_y r) /\
    pos.["z"] = Ok (r_ball_hit_z r) /\
    process_shot md seqs (hit_samples samples) (bounce_samples samples) shot
    = Ok (Some r) /\
    process_shots md seqs (hit_samples samples) (bounce_samples samples)
                  before [] = Ok rows1 /\
    process_shots md seqs (hit_samples samples) (bounce_samples samples)
                  after [] = Ok rows2 /\
    rows = rows0 ++ rows1 ++ r :: rows2.
Proof.
  intros Hparts Hn Hz H.
  apply process_document_inv in H.
  destruct H as (seqs' & samples' & shots' & Hparts' & H).
  destruct (document_parts_fun _ _ _ _ _ _ _ Hparts Hparts') as (-> & -> & ->).
  rewrite process_shots_app in H. inv_bind H. cbn in H. inv_bind H.
  apply process_shots_acc in E. destruct E as (rows1 & E & ->).
  assert (Hs := E0). unfold process_shot in E0. rewrite Hn in E0. cbn in E0.
  destruct (Z.ltb_spec (Z.of_nat (length (hit_samples samples))) z); [lia |].
  inv_bind E0. injection E0 as <-.
  apply process_shots_acc in H. destruct H as (rows2 & H & ->).
  apply build_row_inv in E1.
  destruct E1 as (ts & dur & et & hit & b & ps & hb & bb & Hsteps).
  destruct Hsteps as (_ & _ & _ & Hhit & _ & _ & Hball & _ & head & Hhead & _ & _ & _ & _ & Hr).
  destruct (row_head_fields _ _ _ _ _ _ _ _ _ Hhead (r_hitter_x x) (r_hitter_y x)
              (r_receiver_x x) (r_receiver_y x))
    as (_ & _ & _ & _ & _ & _ & _ & Hx & Hy & Hzz & _).
  cbn zeta in Hx, Hy, Hzz. rewrite <- Hr in Hx, Hy, Hzz.
  exists hit, hb, x, rows1, rows2. cbn in Hhit.
  repeat (split; [assumption |]).
  rewrite <- !app_assoc. reflexivity.
Qed.


(** Below [-len(hits) + 1] the subscript [shot_no - 1] is out of range. *)
Lemma process_shot_index_error md seqs hits bounces shot z :
  shot.["shot_no"] = Ok (JInt z) ->
  z <= - Z.of_nat (length hits) ->
  (exists e, process_shot md seqs hits bounces shot = Err e) /\
  (forall ts d et,
     shot.["time_utc"] = Ok ts -> shot.["duration"] = Ok d ->
     end_time_of ts d = Ok et ->
     process_shot md seqs hits bounces shot = Err IndexError).
Proof.
  intros Hn Hz.
  assert (Hidx : py_index_pred hits (JInt z) = Err IndexError).
  { cbn. apply list_index_out_of_range. lia. }
  assert (Hg : py_gt_len (JInt z) (length hits) = Ok false).
  { cbn. destruct (Z.ltb_spec (Z.of_nat (length hits)) z); [lia | reflexivity]. }
  unfold process_shot. rewrite Hn. cbn [bind]. rewrite Hg. cbn [bind].
  unfold build_row. split.
  - destruct (shot.["time_utc"]); cbn [bind]; eauto.
    destruct (shot.["duration"]); cbn [bind]; eauto.
    destruct (end_time_of a a0); cbn [bind]; eauto.
    rewrite Hidx. cbn [bind]. eauto.
  - intros ts d et -> -> Het. cbn [bind]. rewrite Het. cbn [bind].
    rewrite Hidx. reflexivity.
Qed.

(** ** The bounce of a shot *)


(** With integer times and an integer duration the window test is the pair
    of strict inequalities. *)
Lemma in_window_integers hit x h t d :
  hit.["time"] = Ok (JInt h) ->
  x.["time"] = Ok (JInt t) ->
  (in_window hit (JInt d) x = Ok true <-> h < t < h + d) /\
  (in_window hit (JInt d) x = Ok false <-> ~ h < t < h + d).
Proof.
  intros Hh Ht. unfold in_window. rewrite Hh, Ht. cbn.
  destruct (Z.ltb_spec h t); cbn.
  - destruct (Z.ltb_spec t (h + d)); split; split; intros; try lia;
      try discriminate; reflexivity.
  - split; split; intros; try lia; try discriminate; reflexivity.
Qed.






(** ** The order of the players *)

Lemma insert_true_after_false {A : Type} (x : bool * A) (fs ts : list (bool * A)) :
  fst x = true ->
  Forall (fun y => fst y = false) fs ->
  Forall (fun y => fst y = true) ts ->
  insert_keyed bool_lt x (fs ++ ts) = fs ++ x :: ts.
Proof.
  intros Hx Hfs Hts. induction Hfs as [| y fs Hy Hfs IH]; cbn.
  - destruct Hts as [| y ts Hy Hts]; cbn; [reflexivity |].
    rewrite Hx, Hy. reflexivity.
  - rewrite Hx, Hy. cbn. now rewrite IH.
Qed.

Lemma insert_false_first {A : Type} (x : bool * A) (l : list (bool * A)) :
  fst x = false -> insert_keyed bool_lt x l = x :: l.
Proof.
  intros Hx. destruct l as [| y l]; cbn; [reflexivity |].
  rewrite Hx. unfold bool_lt. now rewrite andb_false_r.
Qed.

(** Sorting on a boolean key puts the [False] items first, then the [True]
    items, each group in its original order. *)
Lemma sort_keyed_bool {A : Type} (l : list (bool * A)) :
  sort_keyed bool_lt l =
  filter (fun y => negb (fst y)) l ++ filter (fun y => fst y) l.
Proof.
  induction l as [| x l IH]; cbn; [reflexivity |].
  fold (sort_keyed bool_lt l). rewrite IH.
  destruct (fst x) eqn:Hx; cbn.
  - apply insert_true_after_false; [assumption | |].
    + apply Forall_forall. intros y Hy. apply filter_In in Hy.
      destruct (fst y); [destruct Hy; discriminate | reflexivity].
    + apply Forall_forall. intros y Hy. apply filter_In in Hy. tauto.
  - now apply insert_false_first.
Qed.

Lemma filter_rev {A : Type} (f : A -> bool) (l : list A) :
  filter f (rev l) = rev (filter f l).
Proof.
  induction l as [| x l IH]; cbn; [reflexivity |].
  rewrite filter_app, IH. cbn. destruct (f x); cbn; [reflexivity |].
  now rewrite app_nil_r.
Qed.

(** With [reverse=True]: the [True] items first, still in original order. *)
Lemma py_sort_bool_reverse {A : Type} (l : list (bool * A)) :
  py_sort bool_lt true l =
  filter (fun y => fst y) l ++ filter (fun y => negb (fst y)) l.
Proof.
  unfold py_sort. rewrite sort_keyed_bool, rev_app_distr, !filter_rev, !rev_involutive.
  reflexivity.
Qed.

Lemma player_keys_spec shot l :
  forall keyed,
    mapM (player_key shot) l = Ok keyed ->
    keyed = map (fun x => (is_hitter shot x, x)) l.
Proof.
  induction l as [| x l IH]; cbn; intros keyed H.
  - now injection H as <-.
  - inv_bind H. injection H as <-. rewrite <- (IH _ E0). f_equal.
    unfold player_key in E. inv_bind E. injection E as <-.
    unfold is_hitter. now rewrite E1, E2.
Qed.

Lemma filter_keyed_snd {A : Type} (key : A -> bool) (f : bool -> bool) (l : list A) :
  map snd (filter (fun y => f (fst y)) (map (fun x => (key x, x)) l)) =
  filter (fun x => f (key x)) l.
Proof.
  induction l as [| x l IH]; cbn; [reflexivity |].
  destruct (f (key x)); cbn; now rewrite IH.
Qed.

(** The sorted player positions: the entries of the shot's team, then the
    others, both in the order of the sample. *)
Lemma sorted_players_spec hit shot positions :
  sorted_players hit shot = Ok positions ->
  exists ps l,
    hit.["players"] = Ok ps /\ py_iter ps = Ok l /\
    positions = filter (is_hitter shot) l ++ filter (is_receiver shot) l.
Proof.
  intros H. unfold sorted_players in H. inv_bind H. injection H as <-.
  exists x, x0. split; [assumption |]. split; [assumption |].
  apply player_keys_spec in E1. subst x1.
  pose proof (py_sort_bool_reverse
                (map (fun y => (is_hitter shot y, y)) x0)) as Hsort.
  unfold py_sort in Hsort. rewrite Hsort, map_app.
  rewrite (filter_keyed_snd (is_hitter shot) (fun b => b)).
  rewrite (filter_keyed_snd (is_hitter shot) negb). reflexivity.
Qed.

Lemma position_of_spec positions i p fx fy :
  list_index positions i = Ok p ->
  position_of positions i "x" = Ok fx ->
  position_of positions i "y" = Ok fy ->
  position_in p fx fy.
Proof.
  intros Hp Hx Hy. unfold position_of in Hx, Hy. rewrite Hp in Hx, Hy.
  cbn [bind] in Hx, Hy. inv_bind Hx. inv_bind Hy.
  rewrite E in E0. injection E0 as <-. exists x. auto.
Qed.

Lemma position_of_Ok_index positions i axis v :
  position_of positions i axis = Ok v ->
  exists p, list_index positions i = Ok p.
Proof. intros H. unfold position_of in H. inv_bind H. eauto. Qed.

Lemma list_index_head {A : Type} (p : A) (l : list A) :
  list_index (p :: l) 0 = Ok p.
Proof.
  destruct (list_index_nonneg (p :: l) 0) as (x & Hnth & ->); [cbn; lia |].
  cbn in Hnth. now injection Hnth as <-.
Qed.

Lemma list_index_second {A : Type} (p q : A) (l : list A) :
  list_index (p :: q :: l) 1 = Ok q.
Proof.
  destruct (list_index_nonneg (p :: q :: l) 1) as (x & Hnth & ->); [cbn; lia |].
  cbn in Hnth. now injection Hnth as <-.
Qed.

Lemma list_index_two {A : Type} (l : list A) (p q : A) :
  list_index l 0 = Ok p -> list_index l 1 = Ok q ->
  exists rest, l = p :: q :: rest.
Proof.
  intros H0 H1. apply list_index_Ok_range in H1 as Hlen.
  destruct l as [| a [| b rest]]; cbn in Hlen; try lia.
  rewrite list_index_head in H0. rewrite list_index_second in H1.
  injection H0 as <-. injection H1 as <-. eauto.
Qed.

Lemma filter_partition_length {A : Type} (f : A -> bool) (l : list A) :
  length (filter f l ++ filter (fun x => negb (f x)) l) = length l.
Proof.
  induction l as [| x l IH]; cbn; [reflexivity |].
  destruct (f x); cbn; [now rewrite IH |].
  rewrite length_app in *. cbn. lia.
Qed.

(** The players behind a row: the sorted positions have at least two
    entries; the first fills the hitter fields, the second the receiver
    fields. *)
Lemma row_positions md seqs hits bounces shot shot_n r :
  build_row md seqs hits bounces shot shot_n = Ok r ->
  exists hit ps l p0 p1 rest,
    py_index_pred hits shot_n = Ok hit /\
    hit.["players"] = Ok ps /\ py_iter ps = Ok l /\
    sorted_players hit shot = Ok (p0 :: p1 :: rest) /\
    filter (is_hitter shot) l ++ filter (is_receiver shot) l = p0 :: p1 :: rest /\
    position_in p0 (r_hitter_x r) (r_hitter_y r) /\
    position_in p1 (r_receiver_x r) (r_receiver_y r).
Proof.
  intros H. apply build_row_inv in H.
  destruct H as (ts & dur & et & hit & b & positions & hb & bb & Hsteps).
  destruct Hsteps as (_ & _ & _ & Hhit & _ & Hsort & _ & _ & head & _
                      & Hhx & Hhy & Hrx & Hry & _).
  destruct (position_of_Ok_index _ _ _ _ Hhx) as (p0 & Hp0).
  destruct (position_of_Ok_index _ _ _ _ Hrx) as (p1 & Hp1).
  destruct (list_index_two _ _ _ Hp0 Hp1) as (rest & ->).
  destruct (sorted_players_spec _ _ _ Hsort) as (ps & l & Hps & Hl & Heq).
  exists hit, ps, l, p0, p1, rest. repeat (split; [now auto |]).
  split; eapply position_of_spec; eauto.
Qed.

Lemma py_getitem_not_IndexError v k : v.[k] <> Err IndexError.
Proof.
  destruct v; cbn; try discriminate.
  destruct (dict_lookup kvs k); discriminate.
Qed.

(** Reading a position raises IndexError exactly when the index is out of
    range. *)
Lemma position_of_IndexError positions i axis :
  position_of positions i axis = Err IndexError <->
  list_index positions i = Err IndexError.
Proof.
  unfold position_of. split.
  - destruct (list_index positions i) as [p | e]; cbn; [| auto].
    intros H. exfalso.
    destruct (p.["pos"]) as [pos | e] eqn:E; cbn in H.
    + now apply py_getitem_not_IndexError in H.
    + injection H as ->. now apply py_getitem_not_IndexError in E.
  - intros ->. reflexivity.
Qed.

Lemma list_index_IndexError {A : Type} (l : list A) (i : Z) :
  list_index l i = Err IndexError <->
  (i < - Z.of_nat (length l) \/ Z.of_nat (length l) <= i).
Proof.
  split; [| apply list_index_out_of_range].
  intros H.
  destruct (Z_lt_le_dec i (- Z.of_nat (length l))); [auto |].
  destruct (Z_lt_le_dec i (Z.of_nat (length l))); [| auto].
  exfalso. destruct (Z_lt_le_dec i 0).
  - destruct (list_index_negative l i) as (x & _ & Hx); [lia |]. congruence.
  - destruct (list_index_nonneg l i) as (x & _ & Hx); [lia |]. congruence.
Qed.

Lemma position_of_in positions i p :
  list_index positions i = Ok p ->
  forall fx fy,
    position_in p fx fy ->
    position_of positions i "x" = Ok fx /\ position_of positions i "y" = Ok fy.
Proof.
  intros Hp fx fy (pos & Hpos & Hx & Hy). unfold position_of.
  rewrite Hp. cbn [bind]. rewrite Hpos. cbn [bind]. auto.
Qed.

(** ** The timestamps of a row *)

Lemma string_length_app (s1 s2 : string) :
  String.length (s1 ++ s2) = (String.length s1 + String.length s2)%nat.
Proof. induction s1 as [| c s1 IH]; cbn; [reflexivity | now rewrite IH]. Qed.

Lemma zero_padded_length w : forall z, String.length (zero_padded w z) = w.
Proof.
  induction w as [| w IH]; intros z; cbn; [reflexivity |].
  rewrite string_length_app, IH. cbn. lia.
Qed.

(** The rendering is 19 characters long, or 26 with the microseconds: there
    is no room for an offset. *)
Lemma isoformat_length t :
  String.length (isoformat t) = if dt_microsecond t =? 0 then 19%nat else 26%nat.
Proof.
  unfold isoformat.
  destruct (dt_microsecond t =? 0);
    repeat (rewrite string_length_app || rewrite zero_padded_length);
    reflexivity.
Qed.


(** ** The pattern and the names of the entries *)

Lemma lazy_group_props s :
  forall g, lazy_group s = Some g -> g <> EmptyString /\ no_newline g = true.
Proof.
  induction s as [| c s IH]; intros g H; cbn [lazy_group] in H; [discriminate |].
  destruct (Ascii.eqb c newline) eqn:Ec; [discriminate |].
  destruct (String.prefix ".json" s).
  - injection H as <-. cbn [no_newline]. rewrite Ec.
    split; [discriminate | reflexivity].
  - destruct (lazy_group s) as [g' |]; [| discriminate].
    injection H as <-. destruct (IH g' eq_refl) as [_ Hn].
    cbn [no_newline]. rewrite Ec, Hn. split; [discriminate | reflexivity].
Qed.

Lemma lazy_group_finds g :
  g <> EmptyString -> no_newline g = true ->
  exists g', lazy_group (g ++ ".json") = Some g'.
Proof.
  induction g as [| c g IH]; intros Hne Hnl; [contradiction |].
  cbn [no_newline] in Hnl. apply andb_prop in Hnl. destruct Hnl as [Hc Hnl].
  apply negb_true_iff in Hc. cbn [String.append lazy_group]. rewrite Hc.
  destruct (String.prefix ".json" (g ++ ".json")) eqn:Ep; [eauto |].
  destruct g as [| c' g'].
  - cbn in Ep. discriminate.
  - destruct (IH ltac:(discriminate) Hnl) as (g'' & ->). cbn. eauto.
Qed.

Lemma re_search_group s :
  forall g, re_search s = Some g -> exists s', lazy_group s' = Some g.
Proof.
  induction s as [| c s IH]; intros g H.
  - cbn in H. discriminate.
  - cbn [re_search] in H. unfold match_here in H.
    destruct (strip_prefix "data/" (String c s)) as [rest |].
    + destruct (lazy_group rest) as [g' |] eqn:E.
      * injection H as <-. eauto.
      * now apply IH.
    + now apply IH.
Qed.

(** The path the generator opens for a group always contains the pattern. *)
Lemma entry_path_matches s g :
  re_search s = Some g -> exists g', re_search (entry_path g) = Some g'.
Proof.
  intros H. apply re_search_group in H. destruct H as (s' & H).
  apply lazy_group_props in H. destruct H as [Hne Hnl].
  destruct (lazy_group_finds g Hne Hnl) as (g' & Hg).
  exists g'. unfold entry_path.
  change (("data/" ++ g ++ ".json")%string)
    with (String "d" (String "a" (String "t" (String "a" (String "/"
            (g ++ ".json")%string))))).
  cbn [re_search]. unfold match_here. cbn [strip_prefix Ascii.eqb Bool.eqb].
  cbn. now rewrite Hg.
Qed.

Lemma keyed_files_group names :
  forall keyed seq g,
    keyed_files names = Ok keyed ->
    In (seq, g) keyed ->
    exists n, In n names /\ re_search n = Some g.
Proof.
  induction names as [| n names IH]; cbn; intros keyed seq g H Hin.
  - injection H as <-. destruct Hin.
  - destruct (re_search n) as [g0 |] eqn:E.
    + inv_bind H. injection H as <-. destruct Hin as [Heq | Hin].
      * injection Heq as <- <-. eauto.
      * destruct (IH _ _ _ E1 Hin) as (m & Hm & Hg). eauto.
    + destruct (IH _ _ _ H Hin) as (m & Hm & Hg). eauto.
Qed.

Lemma keyed_files_app l1 l2 :
  keyed_files (l1 ++ l2) =
  (k1 <- keyed_files l1 ;; k2 <- keyed_files l2 ;; Ok (k1 ++ k2)).
Proof.
  induction l1 as [| n l1 IH]; cbn.
  - destruct (keyed_files l2); reflexivity.
  - destruct (re_search n); [| exact IH].
    destruct (mapM py_int (split_on "_" s)); cbn; [| reflexivity].
    rewrite IH. destruct (keyed_files l1); cbn; [| reflexivity].
    destruct (keyed_files l2); reflexivity.
Qed.

Lemma keyed_files_cons n names :
  keyed_files (n :: names) =
  (k1 <- keyed_one n ;; k2 <- keyed_files names ;; Ok (k1 ++ k2)).
Proof.
  cbn [keyed_files]. unfold keyed_one. destruct (re_search n); cbn [bind].
  - destruct (mapM py_int (split_on "_" s)); cbn [bind]; [| reflexivity].
    destruct (keyed_files names); reflexivity.
  - destruct (keyed_files names); reflexivity.
Qed.

Lemma keyed_files_perm l l' :
  Permutation l l' ->
  forall k, keyed_files l = Ok k ->
            exists k', keyed_files l' = Ok k' /\ Permutation k k'.
Proof.
  induction 1 as [| x l l' Hp IH | x y l | l l' l'' Hp1 IH1 Hp2 IH2]; intros k Hk.
  - eauto.
  - rewrite keyed_files_cons in *. inv_bind Hk. injection Hk as <-.
    destruct (IH _ E0) as (k' & Hk' & Hperm).
    exists (x0 ++ k'). rewrite E. cbn [bind]. rewrite Hk'. cbn [bind].
    split; [reflexivity | now apply Permutation_app_head].
  - rewrite !keyed_files_cons in *. inv_bind Hk. injection Hk as <-.
    inv_bind E0. injection E0 as <-.
    exists (x2 ++ x0 ++ x3). rewrite E1. cbn [bind]. rewrite E. cbn [bind].
    rewrite E2. cbn [bind]. split; [reflexivity |].
    rewrite !app_assoc. apply Permutation_app_tail, Permutation_app_comm.
  - destruct (IH1 _ Hk) as (k' & Hk' & Hperm').
    destruct (IH2 _ Hk') as (k'' & Hk'' & Hperm'').
    exists k''. split; [assumption | now transitivity k'].
Qed.

Lemma keyed_files_member names :
  forall keyed N g,
    keyed_files names = Ok keyed ->
    In N names -> re_search N = Some g ->
    exists seq, keyed_one N = Ok [(seq, g)] /\ In (seq, g) keyed.
Proof.
  induction names as [| n names IH]; intros keyed N g H Hin Hg; [destruct Hin |].
  rewrite keyed_files_cons in H. inv_bind H. injection H as <-.
  destruct Hin as [-> | Hin].
  - unfold keyed_one in *. rewrite Hg in *. inv_bind E. injection E as <-.
    exists x1. rewrite E1. cbn [bind]. split; [reflexivity | now left].
  - destruct (IH _ _ _ E0 Hin Hg) as (seq & Hone & Hmem).
    exists seq. split; [assumption |]. apply in_or_app. now right.
Qed.

(** When no two entries have the same key, the entries with a name the
    pattern is found in are unique. *)
Lemma names_functional a :
  forall keyed,
    keyed_files (namelist a) = Ok keyed ->
    NoDup (map fst keyed) ->
    forall N g c c',
      re_search N = Some g -> In (N, c) a -> In (N, c') a -> c = c'.
Proof.
  induction a as [| [n c0] a IH]; intros keyed Hk Hnd N g c c' Hg Hc Hc';
    [destruct Hc |].
  cbn [namelist map fst] in Hk. fold (namelist a) in Hk.
  rewrite keyed_files_cons in Hk. inv_bind Hk. injection Hk as <-.
  rewrite map_app in Hnd.
  assert (Hhead : forall c1,
             In (N, c1) a -> n = N -> False).
  { intros c1 Hin ->.
    assert (HN : In N (namelist a)) by (apply (in_map fst) in Hin; exact Hin).
    destruct (keyed_files_member _ _ _ _ E0 HN Hg) as (seq & Hone & Hmem).
    rewrite Hone in E. injection E as <-.
    cbn in Hnd. inversion Hnd as [| ? ? Hnotin _]; subst. apply Hnotin.
    apply (in_map fst) in Hmem. exact Hmem. }
  destruct Hc as [Hc | Hc]; destruct Hc' as [Hc' | Hc'].
  - congruence.
  - injection Hc as -> ->. exfalso. now apply (Hhead c').
  - injection Hc' as -> ->. exfalso. now apply (Hhead c).
  - apply (IH x0 E0) with N g; auto.
    clear - Hnd. induction (map fst x) as [| y ys IHy]; [exact Hnd |].
    apply IHy. now inversion Hnd.
Qed.

(** ** Reading the archive *)

Lemma zip_read_In a N :
  forall c, zip_read a N = Ok c -> In (N, c) a.
Proof.
  induction a as [| [n c0] a IH]; cbn; intros c H; [discriminate |].
  destruct (zip_read a N) as [c1 | e].
  - injection H as <-. right. now apply IH.
  - destruct (String.eqb_spec n N) as [-> | Hne]; [| discriminate].
    injection H as <-. now left.
Qed.

Lemma zip_read_missing a N :
  forall e, zip_read a N = Err e -> e = KeyError /\ forall c, ~ In (N, c) a.
Proof.
  induction a as [| [n c0] a IH]; cbn; intros e H.
  - injection H as <-. split; [reflexivity | auto].
  - destruct (zip_read a N) as [c1 | e1] eqn:E; [discriminate |].
    destruct (String.eqb_spec n N) as [-> | Hne]; [discriminate |].
    injection H as <-. split; [reflexivity |].
    intros c [Hc | Hc]; [congruence |].
    destruct (IH _ eq_refl) as [_ Hno]. now apply (Hno c).
Qed.

Lemma zip_read_perm a a' N :
  Permutation a a' ->
  (forall c c', In (N, c) a -> In (N, c') a -> c = c') ->
  zip_read a' N = zip_read a N.
Proof.
  intros Hp Hfun.
  destruct (zip_read a N) as [c | e] eqn:E, (zip_read a' N) as [c' | e'] eqn:E'.
  - apply zip_read_In in E, E'. f_equal. apply Hfun; [| assumption].
    now apply (Permutation_in _ (Permutation_sym Hp)).
  - apply zip_read_In in E. apply zip_read_missing in E'.
    destruct E' as [_ Hno]. exfalso. apply (Hno c).
    now apply (Permutation_in _ Hp).
  - apply zip_read_In in E'. apply zip_read_missing in E.
    destruct E as [_ Hno]. exfalso. apply (Hno c').
    now apply (Permutation_in _ (Permutation_sym Hp)).
  - apply zip_read_missing in E, E'. destruct E as [-> _], E' as [-> _].
    reflexivity.
Qed.

Lemma zip_read_skip a1 name c a2 N :
  name <> N ->
  zip_read (a1 ++ (name, c) :: a2) N = zip_read (a1 ++ a2) N.
Proof.
  intros Hne. induction a1 as [| [n0 c0] a1 IH]; cbn.
  - destruct (zip_read a2 N) as [c' | e] eqn:E; [reflexivity |].
    apply zip_read_missing in E. destruct E as [-> _].
    destruct (String.eqb_spec name N); [contradiction | reflexivity].
  - now rewrite IH.
Qed.

(** ** The sort *)

Lemma insert_keyed_perm {K A : Type} (lt : K -> K -> bool) (x : K * A) l :
  Permutation (insert_keyed lt x l) (x :: l).
Proof.
  induction l as [| y l IH]; cbn; [reflexivity |].
  destruct (lt (fst y) (fst x)); [| reflexivity].
  rewrite IH. apply perm_swap.
Qed.

Lemma sort_keyed_perm {K A : Type} (lt : K -> K -> bool) (l : list (K * A)) :
  Permutation (sort_keyed lt l) l.
Proof.
  induction l as [| x l IH]; cbn; [reflexivity |].
  fold (sort_keyed lt l). rewrite insert_keyed_perm. now constructor.
Qed.

Lemma lex_lt_irrefl a : lex_lt a a = false.
Proof.
  induction a as [| x a IH]; cbn; [reflexivity |]. now rewrite Z.eqb_refl.
Qed.

Lemma lex_lt_asym a : forall b, lex_lt a b = true -> lex_lt b a = false.
Proof.
  induction a as [| x a IH]; intros [| y b]; cbn; try congruence.
  destruct (Z.eqb_spec x y) as [-> | Hne].
  - rewrite Z.eqb_refl. apply IH.
  - destruct (Z.eqb_spec y x); [congruence |]. intros H.
    apply Z.ltb_lt in H. apply Z.ltb_ge. lia.
Qed.

Lemma lex_le_trans a :
  forall b c, lex_lt b a = false -> lex_lt c b = false -> lex_lt c a = false.
Proof.
  induction a as [| x a IH]; intros [| y b] [| z c]; cbn; try congruence.
  destruct (Z.eqb_spec y x) as [-> | Hyx].
  - destruct (Z.eqb_spec z x) as [-> | Hzx]; [apply IH | auto].
  - destruct (Z.eqb_spec z y) as [-> | Hzy].
    + destruct (Z.eqb_spec y x); [congruence | auto].
    + intros H1 H2. apply Z.ltb_ge in H1, H2.
      destruct (Z.eqb_spec z x); [lia |]. apply Z.ltb_ge. lia.
Qed.

Lemma lex_antisym a :
  forall b, lex_lt a b = false -> lex_lt b a = false -> a = b.
Proof.
  induction a as [| x a IH]; intros [| y b]; cbn; try congruence.
  destruct (Z.eqb_spec x y) as [-> | Hne].
  - rewrite Z.eqb_refl. intros H1 H2. f_equal. now apply IH.
  - destruct (Z.eqb_spec y x); [congruence |]. intros H1 H2.
    apply Z.ltb_ge in H1, H2. lia.
Qed.

Lemma lex_eqb_eq a : forall b, lex_eqb a b = true <-> a = b.
Proof.
  induction a as [| x a IH]; intros [| y b]; cbn; split; try congruence.
  - intros H. apply andb_prop in H. destruct H as [H1 H2].
    apply Z.eqb_eq in H1. apply IH in H2. congruence.
  - intros H. injection H as -> ->. rewrite Z.eqb_refl. now apply IH.
Qed.

Lemma insert_keyed_sorted (x : list Z * string) l :
  StronglySorted key_le l -> StronglySorted key_le (insert_keyed lex_lt x l).
Proof.
  induction 1 as [| y l Hs IH Hy]; cbn; [repeat constructor |].
  destruct (lex_lt (fst y) (fst x)) eqn:E.
  - constructor; [exact IH |].
    apply Forall_forall. intros z Hz.
    apply (Permutation_in _ (insert_keyed_perm lex_lt x l)) in Hz.
    destruct Hz as [<- | Hz].
    + unfold key_le. now apply lex_lt_asym.
    + rewrite Forall_forall in Hy. now apply Hy.
  - constructor; [now constructor |].
    constructor; [exact E |].
    apply Forall_forall. intros z Hz. rewrite Forall_forall in Hy.
    unfold key_le in *. eapply lex_le_trans; [exact E | now apply Hy].
Qed.

Lemma sort_keyed_sorted (l : list (list Z * string)) :
  StronglySorted key_le (sort_keyed lex_lt l).
Proof.
  induction l as [| x l IH]; cbn; [constructor |].
  now apply insert_keyed_sorted.
Qed.

(** The sort is stable: the items of one key stay in their order. *)
Lemma insert_keyed_stable k (x : list Z * string) l :
  filter (has_key k) (insert_keyed lex_lt x l) = filter (has_key k) (x :: l).
Proof.
  induction l as [| y l IH]; [reflexivity |].
  cbn [insert_keyed]. destruct (lex_lt (fst y) (fst x)) eqn:E; [| reflexivity].
  cbn [filter] in *. rewrite IH.
  destruct (has_key k y) eqn:Ey, (has_key k x) eqn:Ex; try reflexivity.
  unfold has_key in Ey, Ex. apply lex_eqb_eq in Ey, Ex.
  rewrite Ey, Ex, lex_lt_irrefl in E. discriminate.
Qed.

Lemma sort_keyed_stable k (l : list (list Z * string)) :
  filter (has_key k) (sort_keyed lex_lt l) = filter (has_key k) l.
Proof.
  induction l as [| x l IH]; [reflexivity |].
  cbn [sort_keyed fold_right]. fold (sort_keyed lex_lt l).
  rewrite insert_keyed_stable. cbn [filter]. now rewrite IH.
Qed.

(** Without ties the ascending order is strict. *)
Lemma sorted_strict l :
  StronglySorted key_le l -> NoDup (map fst l) -> StronglySorted key_lt l.
Proof.
  induction 1 as [| x l Hs IH Hx]; cbn; intros Hnd; constructor.
  - apply IH. now inversion Hnd.
  - apply Forall_forall. intros y Hy. rewrite Forall_forall in Hx.
    specialize (Hx y Hy). unfold key_le in Hx. unfold key_lt.
    destruct (lex_lt (fst x) (fst y)) eqn:E; [reflexivity |].
    exfalso. inversion Hnd as [| ? ? Hnotin _]; subst. apply Hnotin.
    rewrite (lex_antisym _ _ E Hx). now apply in_map.
Qed.

(** Two ascending arrangements of the same items, no two of one key, are
    the same list. *)
Lemma sorted_unique l1 :
  forall l2,
    StronglySorted key_le l1 -> StronglySorted key_le l2 ->
    Permutation l1 l2 -> NoDup (map fst l1) -> l1 = l2.
Proof.
  induction l1 as [| x l1 IH]; intros l2 H1 H2 Hp Hnd.
  - apply Permutation_nil in Hp. now subst.
  - destruct l2 as [| y l2]; [apply Permutation_sym, Permutation_nil in Hp; discriminate |].
    assert (Hxy : x = y).
    { assert (Hx : In x (y :: l2)) by (apply (Permutation_in _ Hp); now left).
      assert (Hy : In y (x :: l1))
        by (apply (Permutation_in _ (Permutation_sym Hp)); now left).
      destruct Hx as [-> | Hx]; [reflexivity |].
      destruct Hy as [-> | Hy]; [reflexivity |].
      exfalso.
      inversion H1 as [| ? ? _ Hx1]; subst. inversion H2 as [| ? ? _ Hy2]; subst.
      rewrite Forall_forall in Hx1, Hy2.
      specialize (Hx1 y Hy). specialize (Hy2 x Hx). unfold key_le in *.
      inversion Hnd as [| ? ? Hnotin _]; subst. apply Hnotin.
      rewrite (lex_antisym _ _ Hy2 Hx1). now apply in_map. }
    subst y. f_equal. apply IH.
    + now inversion H1.
    + now inversion H2.
    + now apply Permutation_cons_inv in Hp.
    + now inversion Hnd.
Qed.

(** ** The loop over the documents *)

Lemma process_files_ext a a' names :
  (forall n, In n names ->
     read_document a' n = read_document a n \/
     exists d d', read_document a n = Ok d /\ read_document a' n = Ok d' /\
                  same_outcome_docs d d') ->
  forall index md rows,
    process_files a' names index md rows = process_files a names index md rows.
Proof.
  induction names as [| n names IH]; intros H index md rows; cbn; [reflexivity |].
  assert (IH' := IH (fun m Hm => H m (or_intror Hm))).
  destruct (H n (or_introl eq_refl)) as [E | (d & d' & E & E' & Hmeta & Hdoc)].
  - rewrite E. destruct (read_document a n); cbn; [| reflexivity].
    destruct (if Nat.eqb index 0 then read_metadata a0 else Ok md); cbn; [| reflexivity].
    destruct (process_document a1 a0 rows); cbn; auto.
  - rewrite E, E'. cbn. rewrite Hmeta.
    destruct (if Nat.eqb index 0 then read_metadata d else Ok md); cbn; [| reflexivity].
    rewrite Hdoc. destruct (process_document a0 d rows); cbn; auto.
Qed.

(** Every row of the run was built for a shot of a document of the archive. *)
Lemma process_files_provenance a names :
  forall index md rows0 rows r,
    process_files a names index md rows0 = Ok rows ->
    In r rows ->
    In r rows0 \/
    exists md' data seqs samples shots shot shot_n,
      row_of_shot a md' data seqs samples shots shot shot_n r.
Proof.
  induction names as [| n names IH]; cbn; intros index md rows0 rows r H Hr.
  - inversion H; subst. now left.
  - inv_bind H. destruct (IH _ _ _ _ _ H Hr) as [Hin | Hex]; [| now right].
    apply process_document_inv in E1.
    destruct E1 as (seqs & samples & shots & Hparts & Hshots).
    destruct (process_shots_provenance _ _ _ _ _ _ _ _ Hshots Hin)
      as [Hin0 | (shot & Hshot & Hs)]; [now left |].
    right. apply process_shot_row in Hs. destruct Hs as (shot_n & Hn & Hgt & Hb).
    exists x0, x, seqs, samples, shots, shot, shot_n.
    unfold row_of_shot. repeat (split; [eauto |]). assumption.
Qed.

Lemma emitted_row_provenance a rows r :
  extract_rows a = Ok rows ->
  In r rows ->
  exists md data seqs samples shots shot shot_n,
    row_of_shot a md data seqs samples shots shot shot_n r.
Proof.
  intros H Hr. unfold extract_rows in H. inv_bind H.
  destruct (process_files_provenance _ _ _ _ _ _ _ H Hr) as [[] | Hex].
  exact Hex.
Qed.

Lemma process_document_acc md data rows0 rows :
  process_document md data rows0 = Ok rows ->
  exists new, process_document md data [] = Ok new /\ rows = rows0 ++ new.
Proof.
  unfold process_document. intros H. inv_bind H.
  destruct x2 as [hits bounces]. inv_bind H.
  apply process_shots_acc in H. destruct H as (new & H & ->).
  exists new. split; [| reflexivity].
  rewrite E. cbn [bind]. rewrite E0. cbn [bind]. rewrite E1. cbn [bind].
  rewrite E2. cbn [bind]. rewrite E3. cbn [bind]. rewrite E4. exact H.
Qed.

(** The rows of a run are the rows of its documents, one group after the
    other in the order the documents are read. *)
Lemma process_files_groups a names :
  forall index md rows0 rows,
    process_files a names index md rows0 = Ok rows ->
    exists groups,
      Forall2 (document_rows a) names groups /\ rows = rows0 ++ concat groups.
Proof.
  induction names as [| n names IH]; cbn; intros index md rows0 rows H.
  - injection H as <-. exists []. split; [constructor | now rewrite app_nil_r].
  - inv_bind H. apply process_document_acc in E1. destruct E1 as (g & Hg & ->).
    destruct (IH _ _ _ _ H) as (groups & Hgroups & ->).
    exists (g :: groups). split.
    + constructor; [| assumption]. exists x, x0. auto.
    + cbn. now rewrite app_assoc.
Qed.

(** The names [sort_files] returns are groups the pattern found, so the
    paths opened for them contain the pattern too. *)
Lemma sorted_names_match names keyed g :
  keyed_files names = Ok keyed ->
  In g (map snd (py_sort lex_lt false keyed)) ->
  exists n g', In n names /\ re_search n = Some g /\
               re_search (entry_path g) = Some g'.
Proof.
  intros Hk Hin. apply in_map_iff in Hin. destruct Hin as ([seq g0] & <- & Hin).
  cbn [py_sort] in Hin. apply (Permutation_in _ (sort_keyed_perm _ _)) in Hin.
  destruct (keyed_files_group _ _ _ _ Hk Hin) as (n & Hn & Hg).
  destruct (entry_path_matches _ _ Hg) as (g' & Hg').
  exists n, g'. auto.
Qed.

(** An entry in whose name the pattern is not found plays no part in the
    run. *)
Lemma unmatched_entry_ignored a1 name c a2 :
  re_search name = None ->
  main (a1 ++ (name, c) :: a2) = main (a1 ++ a2).
Proof.
  intros Hno. unfold main, extract_rows, sort_files.
  assert (Hk : keyed_files (namelist (a1 ++ (name, c) :: a2)) =
               keyed_files (namelist (a1 ++ a2))).
  { unfold namelist. rewrite !map_app. cbn [map fst].
    rewrite !keyed_files_app, keyed_files_cons. unfold keyed_one. rewrite Hno.
    cbn [bind]. destruct (keyed_files (map fst a1)); cbn [bind]; [| reflexivity].
    destruct (keyed_files (map fst a2)); reflexivity. }
  rewrite Hk. destruct (keyed_files (namelist (a1 ++ a2))) as [keyed |] eqn:E;
    cbn [bind]; [| reflexivity].
  rewrite (process_files_ext (a1 ++ a2) (a1 ++ (name, c) :: a2)); [reflexivity |].
  intros g Hg. left. unfold read_document.
  destruct (sorted_names_match _ _ _ E Hg) as (n & g' & _ & _ & Hpath).
  rewrite zip_read_skip; [reflexivity |]. congruence.
Qed.

Lemma zip_read_replace a1 name c c' a2 N :
  zip_read (a1 ++ (name, c') :: a2) N = zip_read (a1 ++ (name, c) :: a2) N \/
  (zip_read (a1 ++ (name, c) :: a2) N = Ok c /\
   zip_read (a1 ++ (name, c') :: a2) N = Ok c').
Proof.
  induction a1 as [| [n0 c0] a1 IH]; cbn.
  - destruct (zip_read a2 N); [now left |].
    destruct (String.eqb name N); [now right | now left].
  - destruct IH as [-> | [-> ->]]; [now left | now right].
Qed.

Lemma namelist_replace a1 name c c' a2 :
  namelist (a1 ++ (name, c') :: a2) = namelist (a1 ++ (name, c) :: a2).
Proof. unfold namelist. now rewrite !map_app. Qed.

(** Replacing a document by one the run cannot tell apart changes nothing. *)
Lemma main_replace_document a1 name d d' a2 :
  same_outcome_docs d d' ->
  main (a1 ++ (name, Some d') :: a2) = main (a1 ++ (name, Some d) :: a2).
Proof.
  intros Hd. unfold main, extract_rows.
  rewrite (namelist_replace a1 name (Some d) (Some d') a2).
  destruct (sort_files _) as [names | e]; cbn; [| reflexivity].
  rewrite (process_files_ext (a1 ++ (name, Some d) :: a2)
                             (a1 ++ (name, Some d') :: a2)); [reflexivity |].
  intros n _. unfold read_document.
  destruct (zip_read_replace a1 name (Some d) (Some d') a2 (entry_path n))
    as [-> | [-> ->]]; [now left |].
  right. exists d, d'. cbn. auto.
Qed.

(** C3. A shot whose [shot_no] exceeds the number of hit-tagged samples of
    its document yields no row and no error, whatever else the shot record
    holds; the loop over the shots, and the whole run, end as they would
    without that shot. *)
Theorem C3_shot_beyond_hits_is_dropped :
  forall a1 a2 name kvs ss samples before shot after z,
    (JObj kvs).["samples"] = Ok ss ->
    py_iter ss = Ok samples ->
    dict_lookup kvs "shots" = Some (JArr (before ++ shot :: after)) ->
    shot.["shot_no"] = Ok (JInt z) ->
    Z.of_nat (length (hit_samples samples)) < z ->
    (forall md seqs,
       process_shot md seqs (hit_samples samples) (bounce_samples samples) shot
       = Ok None) /\
    (forall md seqs rows,
       process_shots md seqs (hit_samples samples) (bounce_samples samples)
                     (before ++ shot :: after) rows =
       process_shots md seqs (hit_samples samples) (bounce_samples samples)
                     (before ++ after) rows) /\
    main (a1 ++ (name, Some (JObj kvs)) :: a2) =
    main (a1 ++ (name, Some (JObj (dict_set kvs "shots" (JArr (before ++ after)))))
             :: a2).
Proof.
  intros a1 a2 name kvs ss samples before shot after z Hss Hit Hshots Hn Hz.
  assert (Hskip : forall md seqs,
             process_shot md seqs (hit_samples samples) (bounce_samples samples) shot
             = Ok None).
  { intros md seqs. now apply process_shot_skipped with z. }
  split; [exact Hskip |]. split.
  { intros md seqs rows. apply process_shots_drop_skipped, Hskip. }
  symmetry. apply main_replace_document. split.
  - unfold read_metadata. cbn [py_getitem].
    now rewrite dict_lookup_set_other.
  - intros md rows. unfold process_document. cbn [py_getitem] in *.
    rewrite !dict_lookup_set_other by reflexivity.
    rewrite (dict_lookup_set_same _ _ _ _ Hshots), Hshots.
    destruct (dict_lookup kvs "sequences"); cbn; [| reflexivity].
    rewrite Hss. cbn. rewrite Hit. cbn.
    destruct (split_samples samples [] []) as [[hits bounces] | e] eqn:Es;
      cbn; [| reflexivity].
    apply split_samples_spec in Es. cbn in Es. destruct Es as [-> ->].
    symmetry. apply process_shots_drop_skipped, Hskip.
Qed.



Lemma C3_shot_beyond_hits_witness :
  main [("data/1.json",
         Some (document 1 scenario_samples
                 [scenario_shot; shot_entry 2 "B" scenario_time (JInt 1)]))]
  = main scenario_archive.
Proof.
  refine (proj2 (proj2
    (C3_shot_beyond_hits_is_dropped [] [] "data/1.json"
       (document_items 1 scenario_samples
          [scenario_shot; shot_entry 2 "B" scenario_time (JInt 1)])
       (JArr scenario_samples) scenario_samples [scenario_shot]
       (shot_entry 2 "B" scenario_time (JInt 1)) [] 2 _ _ _ _ _)));
    reflexivity.
Defined.

(** C9 (amended). In a document with [n >= 1] hit-tagged samples that is
    processed to the end, a shot whose [shot_no] is between [-(n - 1)] and 0
    passes the guard and gets exactly one row, built from the hit-tagged
    sample at position [n + shot_no] counting from 1 (the last one for 0).
    From [shot_no = -n] downwards the subscript is out of range and the shot
    makes the run fail, with IndexError once its timestamps are read. *)
Theorem C9_nonpositive_shot_no_counts_from_end :
  forall md data seqs samples before shot after z rows0 rows,
    document_parts data seqs samples (before ++ shot :: after) ->
    shot.["shot_no"] = Ok (JInt z) ->
    - Z.of_nat (length (hit_samples samples)) < z <= 0 ->
    process_document md data rows0 = Ok rows ->
    (exists hit pos r rows1 rows2,
       nth_error (hit_samples samples)
                 (Z.to_nat (Z.of_nat (length (hit_samples samples)) + z - 1))
       = Some hit /\
       (exists ball, hit.["ball"] = Ok ball /\ ball.["pos"] = Ok pos) /\
       pos.["x"] = Ok (r_ball_hit_x r) /\
       pos.["y"] = Ok (r_ball_hit_y r) /\
       pos.["z"] = Ok (r_ball_hit_z r) /\
       process_shot md seqs (hit_samples samples) (bounce_samples samples) shot
       = Ok (Some r) /\
       process_shots md seqs (hit_samples samples) (bounce_samples samples)
                     before [] = Ok rows1 /\
       process_shots md seqs (hit_samples samples) (bounce_samples samples)
                     after [] = Ok rows2 /\
       rows = rows0 ++ rows1 ++ r :: rows2) /\
    (forall shot' z',
       shot'.["shot_no"] = Ok (JInt z') ->
       z' <= - Z.of_nat (length (hit_samples samples)) ->
       (exists e, process_shot md seqs (hit_samples samples)
                               (bounce_samples samples) shot' = Err e) /\
       (forall ts d et,
          shot'.["time_utc"] = Ok ts -> shot'.["duration"] = Ok d ->
          end_time_of ts d = Ok et ->
          process_shot md seqs (hit_samples samples) (bounce_samples samples) shot'
          = Err IndexError)).
Proof.
  intros md data seqs samples before shot after z rows0 rows Hparts Hn Hz H.
  split.
  - assert (Hle : z <= Z.of_nat (length (hit_samples samples))) by lia.
    destruct (unskipped_shot_row _ _ _ _ _ _ _ _ _ _ Hparts Hn Hle H)
      as (hit & pos & r & rows1 & rows2 & Hhit & Hrest).
    destruct (list_index_negative (hit_samples samples) (z - 1))
      as (h & Hnth & Hidx); [lia |].
    rewrite Hhit in Hidx. injection Hidx as <-.
    exists hit, pos, r, rows1, rows2. split; [| exact Hrest].
    rewrite <- Hnth. f_equal. lia.
  - intros shot' z' Hn' Hz'. now apply process_shot_index_error with z'.
Qed.

Lemma C9_nonpositive_shot_no_witness :
  exists r,
    process_shot scenario_metadata (sequences_entry 1)
                 (hit_samples scenario_samples) (bounce_samples scenario_samples)
                 (shot_entry 0 "A" scenario_time (JInt 1)) = Ok (Some r) /\
    r_ball_hit_x r = JInt 1.
Proof.
  edestruct (C9_nonpositive_shot_no_counts_from_end scenario_metadata
               (document 1 scenario_samples [shot_entry 0 "A" scenario_time (JInt 1)])
               (sequences_entry 1) scenario_samples []
               (shot_entry 0 "A" scenario_time (JInt 1)) [] 0 [])
    as ((hit & pos & r & rows1 & rows2 & Hnth & (ball & Hb1 & Hb2)
         & Hx & _ & _ & Hs & _) & _).
  - unfold document_parts. split; [reflexivity |].
    split; eexists; split; reflexivity.
  - reflexivity.
  - vm_compute. split; [reflexivity | discriminate].
  - vm_compute. reflexivity.
  - exists r. split; [exact Hs |].
    vm_compute in Hnth. injection Hnth as <-.
    vm_compute in Hb1. injection Hb1 as <-.
    vm_compute in Hb2. injection Hb2 as <-.
    change (Ok (JInt 1) = Ok (r_ball_hit_x r)) in Hx.
    injection Hx as <-. reflexivity.
Defined.

(** C9, as stated, fails at [shot_no = -(hit count)]: with one hit-tagged
    sample and [shot_no = -1] the subscript is [hits[-2]], no row is emitted
    and the run ends with IndexError. *)
Lemma C9_counterexample_minus_hit_count :
  Z.of_nat (length (hit_samples scenario_samples)) = 1 /\
  process_shot scenario_metadata (sequences_entry 1)
               (hit_samples scenario_samples) (bounce_samples scenario_samples)
               (shot_entry (-1) "A" scenario_time (JInt 1)) = Err IndexError /\
  main [("data/1.json",
         Some (document 1 scenario_samples
                 [shot_entry (-1) "A" scenario_time (JInt 1)]))]
  = (Err IndexError, None).
Proof. vm_compute. auto. Qed.



(** C5. For every emitted row the sorted player positions are the entries
    of the hit sample whose team is the shot's team, in sample order, followed
    by the other entries, in sample order (a stable reordering).  When exactly
    one entry [p] has the shot's team, [p] fills [hitter_x], [hitter_y] and
    the first of the others fills [receiver_x], [receiver_y]; with two
    entries this holds whichever of them comes first in the sample. *)
Theorem C5_hitter_first_receiver_second :
  forall a rows r,
    extract_rows a = Ok rows ->
    In r rows ->
    exists md data seqs samples shots shot shot_n hit l,
      row_of_shot a md data seqs samples shots shot shot_n r /\
      py_index_pred (hit_samples samples) shot_n = Ok hit /\
      (exists ps, hit.["players"] = Ok ps /\ py_iter ps = Ok l) /\
      sorted_players hit shot =
      Ok (filter (is_hitter shot) l ++ filter (is_receiver shot) l) /\
      (forall p,
         filter (is_hitter shot) l = [p] ->
         position_in p (r_hitter_x r) (r_hitter_y r) /\
         exists q rest,
           filter (is_receiver shot) l = q :: rest /\
           position_in q (r_receiver_x r) (r_receiver_y r)) /\
      (forall p q,
         l = [p; q] \/ l = [q; p] ->
         is_hitter shot p = true -> is_hitter shot q = false ->
         position_in p (r_hitter_x r) (r_hitter_y r) /\
         position_in q (r_receiver_x r) (r_receiver_y r)).
Proof.
  intros a rows r H Hr.
  destruct (emitted_row_provenance _ _ _ H Hr)
    as (md & data & seqs & samples & shots & shot & shot_n & Hrow).
  assert (Hb := Hrow). destruct Hb as (_ & _ & _ & _ & _ & Hb).
  apply row_positions in Hb.
  destruct Hb as (hit & ps & l & p0 & p1 & rest & Hhit & Hps & Hl & Hsort & Heq
                  & Hp0 & Hp1).
  exists md, data, seqs, samples, shots, shot, shot_n, hit, l.
  split; [assumption |]. split; [assumption |]. split; [eauto |].
  split; [now rewrite Heq |].
  assert (Hone : forall p,
             filter (is_hitter shot) l = [p] ->
             position_in p (r_hitter_x r) (r_hitter_y r) /\
             exists q rest0,
               filter (is_receiver shot) l = q :: rest0 /\
               position_in q (r_receiver_x r) (r_receiver_y r)).
  { intros p Hp. rewrite Hp in Heq. cbn in Heq.
    injection Heq as -> Hothers. split; [assumption |]. eauto. }
  split; [exact Hone |].
  intros p q Hpq Hp Hq.
  destruct (Hone p) as (Hpos & q' & rest' & Hoth & Hpos').
  { unfold is_receiver in *.
    destruct Hpq as [-> | ->]; cbn; rewrite Hp, Hq; reflexivity. }
  split; [assumption |].
  assert (q' = q); [| now subst].
  unfold is_receiver in Hoth.
  destruct Hpq as [-> | ->]; cbn in Hoth; rewrite Hp, Hq in Hoth; cbn in Hoth;
    now injection Hoth as ->.
Qed.

Lemma C5_hitter_first_witness :
  exists md data seqs samples shots shot shot_n hit l,
    row_of_shot scenario_archive md data seqs samples shots shot shot_n
                scenario_row /\
    py_index_pred (hit_samples samples) shot_n = Ok hit /\
    (exists ps, hit.["players"] = Ok ps /\ py_iter ps = Ok l) /\
    sorted_players hit shot =
    Ok (filter (is_hitter shot) l ++ filter (is_receiver shot) l) /\
    (forall p,
       filter (is_hitter shot) l = [p] ->
       position_in p (r_hitter_x scenario_row) (r_hitter_y scenario_row) /\
       exists q rest,
         filter (is_receiver shot) l = q :: rest /\
         position_in q (r_receiver_x scenario_row) (r_receiver_y scenario_row)) /\
    (forall p q,
       l = [p; q] \/ l = [q; p] ->
       is_hitter shot p = true -> is_hitter shot q = false ->
       position_in p (r_hitter_x scenario_row) (r_hitter_y scenario_row) /\
       position_in q (r_receiver_x scenario_row) (r_receiver_y scenario_row)).
Proof.
  apply (C5_hitter_first_receiver_second scenario_archive [scenario_row]
           scenario_row).
  - vm_compute. reflexivity.
  - left. reflexivity.
Defined.




(** C10. Take a shot that passed the guard, with every step before the
    player fields done: timestamps, hit, bounce, sort and the head of the
    row; let the hit sample list the entries [l], each with a readable
    position.  With fewer than two entries the row is not built and the
    failure is IndexError; with two or more the row is built.  In any case a
    row is only built from a hit sample that lists two entries or more, and
    reading the hitter (the receiver) position raises IndexError exactly when
    the sample lists no entry (fewer than two). *)
Theorem C10_two_player_positions_needed :
  forall md seqs hits bounces shot shot_n ts d et hit b ps l positions ball
         hit_ball bounce_ball head,
    shot.["time_utc"] = Ok ts ->
    shot.["duration"] = Ok d ->
    end_time_of ts d = Ok et ->
    py_index_pred hits shot_n = Ok hit ->
    find_bounce hit d bounces = Ok b ->
    hit.["players"] = Ok ps ->
    py_iter ps = Ok l ->
    sorted_players hit shot = Ok positions ->
    hit.["ball"] = Ok ball ->
    ball.["pos"] = Ok hit_ball ->
    bounce_ball_of b = Ok bounce_ball ->
    row_head md seqs shot shot_n ts et hit_ball bounce_ball = Ok head ->
    Forall (fun p => exists fx fy, position_in p fx fy) l ->
    length positions = length l /\
    ((length l < 2)%nat ->
     build_row md seqs hits bounces shot shot_n = Err IndexError /\
     (shot.["shot_no"] = Ok shot_n ->
      py_gt_len shot_n (length hits) = Ok false ->
      forall rest rows,
        process_shots md seqs hits bounces (shot :: rest) rows = Err IndexError)) /\
    ((2 <= length l)%nat ->
     exists r, build_row md seqs hits bounces shot shot_n = Ok r) /\
    (forall r, build_row md seqs hits bounces shot shot_n = Ok r ->
               (2 <= length l)%nat) /\
    (forall axis,
       (position_of positions 0 axis = Err IndexError <-> length l = 0%nat) /\
       (position_of positions 1 axis = Err IndexError <-> (length l < 2)%nat)).
Proof.
  intros md seqs hits bounces shot shot_n ts d et hit b ps l positions ball
         hit_ball bounce_ball head
         Hts Hd Het Hhit Hb Hps Hl Hsort Hball Hpos Hbb Hhead Hwf.
  destruct (sorted_players_spec _ _ _ Hsort) as (ps' & l' & Hps' & Hl' & Heq).
  rewrite Hps in Hps'. injection Hps' as <-.
  rewrite Hl in Hl'. injection Hl' as <-.
  assert (Hlen : length positions = length l).
  { rewrite Heq. apply filter_partition_length. }
  assert (Hwf' : Forall (fun p => exists fx fy, position_in p fx fy) positions).
  { apply Forall_forall. intros p Hp. rewrite Forall_forall in Hwf. apply Hwf.
    rewrite Heq in Hp. apply in_app_or in Hp.
    destruct Hp as [Hp | Hp]; apply filter_In in Hp; tauto. }
  assert (Hbuild :
            build_row md seqs hits bounces shot shot_n =
            (hitter_x <- position_of positions 0 "x" ;;
             hitter_y <- position_of positions 0 "y" ;;
             receiver_x <- position_of positions 1 "x" ;;
             receiver_y <- position_of positions 1 "y" ;;
             Ok (head hitter_x hitter_y receiver_x receiver_y))).
  { unfold build_row. rewrite Hts. cbn [bind]. rewrite Hd. cbn [bind].
    rewrite Het. cbn [bind]. rewrite Hhit. cbn [bind]. rewrite Hb. cbn [bind].
    rewrite Hsort. cbn [bind]. rewrite Hball. cbn [bind]. rewrite Hpos.
    cbn [bind]. rewrite Hbb. cbn [bind]. rewrite Hhead. reflexivity. }
  split; [exact Hlen |]. split; [| split; [| split]].
  - intros Hshort.
    assert (Herr : build_row md seqs hits bounces shot shot_n = Err IndexError).
    { rewrite Hbuild.
      destruct positions as [| p0 [| p1 rest]]; cbn in Hlen.
      + reflexivity.
      + inversion Hwf' as [| ? ? (fx & fy & Hp0) _]; subst.
        destruct (position_of_in [p0] 0 p0 (list_index_head _ _) _ _ Hp0)
          as (-> & ->).
        reflexivity.
      + lia. }
    split; [exact Herr |].
    intros Hn Hguard rest rows. cbn [process_shots]. unfold process_shot.
    rewrite Hn. cbn [bind]. rewrite Hguard. cbn [bind]. rewrite Herr.
    reflexivity.
  - intros Hlong. rewrite Hbuild.
    destruct positions as [| p0 [| p1 rest]]; cbn in Hlen; try lia.
    inversion Hwf' as [| ? ? (fx & fy & Hp0) Hwf1]; subst.
    inversion Hwf1 as [| ? ? (gx & gy & Hp1) _]; subst.
    destruct (position_of_in (p0 :: p1 :: rest) 0 p0 (list_index_head _ _) _ _ Hp0)
      as (-> & ->).
    destruct (position_of_in (p0 :: p1 :: rest) 1 p1 (list_index_second _ _ _) _ _ Hp1)
      as (-> & ->).
    cbn. eauto.
  - intros r Hr. apply row_positions in Hr.
    destruct Hr as (hit' & ps' & l' & p0 & p1 & rest & Hhit' & Hps' & Hl' & _ & Heq' & _).
    rewrite Hhit in Hhit'. injection Hhit' as <-.
    rewrite Hps in Hps'. injection Hps' as <-.
    rewrite Hl in Hl'. injection Hl' as <-.
    rewrite <- (filter_partition_length (is_hitter shot) l).
    fold (is_receiver shot). rewrite Heq'. cbn. lia.
  - intros axis. rewrite !position_of_IndexError, !list_index_IndexError, Hlen.
    split; lia.
Qed.

Lemma C10_two_player_positions_witness :
  build_row scenario_metadata (sequences_entry 1) [lone_player_hit] []
            scenario_shot (JInt 1) = Err IndexError.
Proof.
  refine (proj1 (proj1 (proj2
    (C10_two_player_positions_needed scenario_metadata (sequences_entry 1)
       [lone_player_hit] [] scenario_shot (JInt 1)
       (JStr scenario_time) (JInt 1) "2023-01-01T00:00:01Z" lone_player_hit None
       (JArr [position_entry "A" 5 6]) [position_entry "A" 5 6]
       [position_entry "A" 5 6]
       (JObj [("pos", JObj [("x", JInt 1); ("y", JInt 2); ("z", JInt 3)])])
       (JObj [("x", JInt 1); ("y", JInt 2); ("z", JInt 3)])
       no_bounce_ball _ _ _ _ _ _ _ _ _ _ _ _ _ _)) _)).
  all: try (vm_compute; reflexivity).
  constructor; [| constructor].
  exists (JInt 5), (JInt 6), (JObj [("x", JInt 5); ("y", JInt 6)]).
  repeat split.
Defined.

(** C1 (amended). The rows of a run are the rows of its documents, group
    after group, in ascending order of the integer tuples of their names;
    documents with equal tuples keep the order of the archive.  When the
    tuples are pairwise distinct the order is strictly ascending, and every
    archive with the same entries in another order gives the same rows. *)
Theorem C1_rows_follow_sorted_keys :
  forall a rows,
    extract_rows a = Ok rows ->
    exists keyed groups,
      keyed_files (namelist a) = Ok keyed /\
      Permutation (py_sort lex_lt false keyed) keyed /\
      StronglySorted key_le (py_sort lex_lt false keyed) /\
      (forall k, filter (has_key k) (py_sort lex_lt false keyed)
                 = filter (has_key k) keyed) /\
      Forall2 (document_rows a) (map snd (py_sort lex_lt false keyed)) groups /\
      rows = concat groups /\
      (NoDup (map fst keyed) ->
       StronglySorted key_lt (py_sort lex_lt false keyed) /\
       forall a', Permutation a a' -> extract_rows a' = Ok rows).
Proof.
  intros a rows H. unfold extract_rows, sort_files in H. inv_bind H.
  apply bind_Ok_inv in E. destruct E as (keyed & Hk & E). injection E as <-.
  destruct (process_files_groups _ _ _ _ _ _ H) as (groups & Hgroups & Hrows).
  exists keyed, groups. cbn [py_sort] in *.
  split; [assumption |]. split; [apply sort_keyed_perm |].
  split; [apply sort_keyed_sorted |]. split; [intros k; apply sort_keyed_stable |].
  split; [assumption |]. split; [assumption |].
  intros Hnd. split.
  - apply sorted_strict; [apply sort_keyed_sorted |].
    apply (Permutation_NoDup (l := map fst keyed)); [| assumption].
    apply Permutation_map, Permutation_sym, sort_keyed_perm.
  - intros a' Hp. unfold extract_rows, sort_files.
    assert (Hnames : Permutation (namelist a) (namelist a'))
      by (now apply Permutation_map).
    destruct (keyed_files_perm _ _ Hnames _ Hk) as (keyed' & Hk' & Hpk).
    rewrite Hk'. cbn [bind py_sort].
    assert (Hsame : sort_keyed lex_lt keyed' = sort_keyed lex_lt keyed).
    { symmetry. apply sorted_unique.
      - apply sort_keyed_sorted.
      - apply sort_keyed_sorted.
      - rewrite !sort_keyed_perm. exact Hpk.
      - apply (Permutation_NoDup (l := map fst keyed)); [| assumption].
        apply Permutation_map, Permutation_sym, sort_keyed_perm. }
    rewrite Hsame, <- H. apply process_files_ext.
    intros g Hg. left. unfold read_document.
    destruct (sorted_names_match _ _ _ Hk Hg) as (n & g' & _ & _ & Hpath).
    rewrite (zip_read_perm a a'); [reflexivity | assumption |].
    intros c c'. now apply (names_functional a keyed Hk Hnd _ g').
Qed.

Lemma C1_rows_follow_sorted_keys_witness :
  exists r1 r2,
    extract_rows [("data/2_0.json", Some second_doc);
                  ("data/1_0.json", Some first_doc)] = Ok [r1; r2] /\
    extract_rows [("data/1_0.json", Some first_doc);
                  ("data/2_0.json", Some second_doc)] = Ok [r1; r2] /\
    r_point r1 = JInt 1 /\ r_point r2 = JInt 2.
Proof.
  eexists. eexists. split; [vm_compute; reflexivity |].
  split; [| split; reflexivity].
  edestruct (C1_rows_follow_sorted_keys
               [("data/2_0.json", Some second_doc); ("data/1_0.json", Some first_doc)])
    as (keyed & groups & Hk & _ & _ & _ & _ & _ & Hperm).
  - vm_compute. reflexivity.
  - apply Hperm.
    + vm_compute in Hk. injection Hk as <-. cbn.
      repeat constructor; cbn; intuition discriminate.
    + apply perm_swap.
Defined.

(** C1, as stated, fails when two names carry the same tuple: "1" and "01"
    both read as (1).  The two documents are emitted in archive order, the
    order of their tuples is not strict, and the same entries in the other
    order give other rows. *)
Lemma C1_counterexample_equal_keys :
  Permutation [("data/1.json", Some first_doc); ("data/01.json", Some second_doc)]
              [("data/01.json", Some second_doc); ("data/1.json", Some first_doc)] /\
  sort_files ["data/1.json"; "data/01.json"] = Ok ["1"; "01"] /\
  sort_files ["data/01.json"; "data/1.json"] = Ok ["01"; "1"] /\
  keyed_files ["data/1.json"; "data/01.json"] = Ok [([1], "1"); ([1], "01")] /\
  extract_rows [("data/1.json", Some first_doc); ("data/01.json", Some second_doc)]
  <> extract_rows [("data/01.json", Some second_doc); ("data/1.json", Some first_doc)].
Proof.
  split; [apply perm_swap |]. repeat (split; [vm_compute; reflexivity |]).
  vm_compute. discriminate.
Qed.

(** C8 (the code at the failing inputs).  The pattern is searched anywhere
    in the name, so an entry that is not of the form [data/<name>.json] can
    still be taken for a document: a backup next to the data makes the rows
    of [data/1.json] come out twice, a resource-fork entry outside [data/]
    makes the run fail on its name, and a copy in another folder makes the
    run open a path that is not in the archive. *)
Theorem C8_unanchored_pattern_takes_other_entries :
  re_search "data/1.json.bak" = Some "1" /\
  re_search "__MACOSX/data/._1.json" = Some "._1" /\
  re_search "backup/data/7.json" = Some "7" /\
  main scenario_archive = (Ok tt, Some [Header fieldnames; Line scenario_row]) /\
  main (scenario_archive ++ [("data/1.json.bak", None)])
  = (Ok tt, Some [Header fieldnames; Line scenario_row; Line scenario_row]) /\
  main (scenario_archive ++ [("__MACOSX/data/._1.json", None)])
  = (Err ValueError, None) /\
  main (scenario_archive ++ [("backup/data/7.json", None)])
  = (Err KeyError, None).
Proof. repeat split; vm_compute; reflexivity. Qed.



(* ================================================================== *)
(** * Further properties of the archive reader *)

Lemma main_matching_entries a :
  forall before, main (before ++ matching_entries a) = main (before ++ a).
Proof.
  induction a as [| e a IH]; intros before; [reflexivity |].
  unfold matching_entries in *. cbn [filter].
  destruct (name_matches e) eqn:E.
  - change (before ++ e :: filter name_matches a)
      with (before ++ [e] ++ filter name_matches a).
    change (before ++ e :: a) with (before ++ [e] ++ a).
    rewrite !app_assoc. apply IH.
  - rewrite IH. destruct e as [n c]. symmetry. apply unmatched_entry_ignored.
    unfold name_matches in E. cbn in E. destruct (re_search n); [discriminate | auto].
Qed.

(** X1. Only the entries in whose name the pattern is found count: the run
    on an archive is the run on the archive without the other entries,
    outcome and output file alike. *)
Theorem X1_run_depends_on_matching_entries :
  forall a, main (matching_entries a) = main a.
Proof. intros a. apply (main_matching_entries a []). Qed.

Lemma keyed_files_unmatched names :
  found_groups names = [] -> keyed_files names = Ok [].
Proof.
  induction names as [| n names IH]; cbn; intros H; [reflexivity |].
  destruct (re_search n); [discriminate | auto].
Qed.

(** X2. An archive without any entry the pattern is found in (the empty
    archive too) processes no document; the run opens the output file, fails
    with IndexError at [rows[0]] and leaves the file empty. *)
Theorem X2_no_document_fails_at_header :
  forall a,
    found_groups (namelist a) = [] ->
    extract_rows a = Ok [] /\ main a = (Err IndexError, Some []).
Proof.
  intros a H. assert (E : extract_rows a = Ok []).
  { unfold extract_rows, sort_files. now rewrite (keyed_files_unmatched _ H). }
  split; [exact E |]. unfold main. now rewrite E.
Qed.

Lemma X2_no_document_witness :
  extract_rows [("manifest.txt", None); ("data/", None)] = Ok [] /\
  main [("manifest.txt", None); ("data/", None)] = (Err IndexError, Some []).
Proof.
  apply (X2_no_document_fails_at_header [("manifest.txt", None); ("data/", None)]).
  reflexivity.
Defined.









Lemma lazy_group_plain g :
  g <> EmptyString -> no_newline g = true -> no_dot g = true ->
  lazy_group (g ++ ".json") = Some g.
Proof.
  induction g as [| c g IH]; intros Hne Hnl Hnd; [contradiction |].
  cbn [no_newline] in Hnl. apply andb_prop in Hnl. destruct Hnl as [Hc Hnl].
  cbn [no_dot] in Hnd. apply andb_prop in Hnd. destruct Hnd as [Hd Hnd].
  apply negb_true_iff in Hc. cbn [String.append lazy_group]. rewrite Hc.
  destruct g as [| c' g'].
  - reflexivity.
  - cbn [no_dot] in Hnd. apply andb_prop in Hnd. destruct Hnd as [Hd' Hnd'].
    apply negb_true_iff in Hd'.
    assert (Hp : String.prefix ".json" (String c' g' ++ ".json") = false).
    { change ((String c' g' ++ ".json")%string) with (String c' (g' ++ ".json")).
      cbn [String.prefix].
      destruct (ascii_dec "."%char c') as [<- | Hne']; [| reflexivity].
      cbn in Hd'. discriminate. }
    rewrite Hp. rewrite IH; [reflexivity | discriminate | assumption |].
    cbn [no_dot]. now rewrite Hd', Hnd'.
Qed.

Lemma plain_group_search g :
  plain_group g = true -> re_search (entry_path g) = Some g.
Proof.
  intros H. unfold plain_group in H.
  apply andb_prop in H. destruct H as [H Hnd].
  apply andb_prop in H. destruct H as [Hne Hnl].
  apply negb_true_iff in Hne. apply String.eqb_neq in Hne.
  unfold entry_path.
  change (("data/" ++ g ++ ".json")%string)
    with (String "d" (String "a" (String "t" (String "a" (String "/"
            (g ++ ".json")%string))))).
  cbn [re_search]. unfold match_here. cbn [strip_prefix Ascii.eqb Bool.eqb].
  cbn. now rewrite (lazy_group_plain g Hne Hnl Hnd).
Qed.

(** X4. For an entry named [data/<g>.json] whose [g] has no dot and no
    newline, the group found is [g] itself, so the path the generator opens
    is the name of that entry. *)
Theorem X4_plain_name_is_reopened :
  forall g,
    plain_group g = true ->
    re_search (entry_path g) = Some g /\
    forall g', re_search (entry_path g) = Some g' -> entry_path g' = entry_path g.
Proof.
  intros g H. assert (E := plain_group_search g H).
  split; [exact E |]. intros g' E'. rewrite E in E'. now injection E' as <-.
Qed.

Lemma X4_plain_name_witness :
  re_search (entry_path "1_2_3") = Some "1_2_3" /\
  forall g', re_search (entry_path "1_2_3") = Some g' ->
             entry_path g' = entry_path "1_2_3".
Proof. apply (X4_plain_name_is_reopened "1_2_3"). reflexivity. Defined.








(* ================================================================== *)
(** * Further properties of the shot extractor *)





Lemma process_shot_kept md seqs hits bounces shot x :
  process_shot md seqs hits bounces shot = Ok x ->
  match x with
  | Some r => kept hits shot = true /\ shot.["shot_no"] = Ok (r_shot_n r)
  | None => kept hits shot = false
  end.
Proof.
  intros H. unfold process_shot in H. unfold kept.
  destruct (shot.["shot_no"]) as [n |]; cbn [bind] in H; [| discriminate].
  destruct (py_gt_len n (length hits)) as [[] |]; cbn [bind] in H;
    [| | discriminate].
  - now injection H as <-.
  - inv_bind H. injection H as <-. split; [reflexivity |]. f_equal.
    apply build_row_inv in E.
    destruct E as (ts & dur & et & hit & b & ps & hb & bb & Hsteps).
    destruct Hsteps as (_ & _ & _ & _ & _ & _ & _ & _ & head & Hhead
                        & _ & _ & _ & _ & Hr).
    destruct (row_head_fields _ _ _ _ _ _ _ _ _ Hhead (r_hitter_x x0) (r_hitter_y x0)
                (r_receiver_x x0) (r_receiver_y x0))
      as (_ & _ & _ & _ & Hn & _).
    cbn zeta in Hn. now rewrite <- Hr in Hn.
Qed.

(** X7. In a document that is processed to the end, the rows are those of
    the shots the guard lets through, one row each, in the order of the
    shots, and each row carries the [shot_no] of its shot. *)
Theorem X7_rows_follow_the_shots :
  forall md seqs hits bounces shots rows,
    process_shots md seqs hits bounces shots [] = Ok rows ->
    Forall2 (fun shot r =>
               process_shot md seqs hits bounces shot = Ok (Some r) /\
               shot.["shot_no"] = Ok (r_shot_n r))
            (filter (kept hits) shots) rows.
Proof.
  intros md seqs hits bounces shots. induction shots as [| s shots IH];
    intros rows H.
  - cbn in H. injection H as <-. constructor.
  - cbn [process_shots] in H. inv_bind H. assert (Hk := process_shot_kept _ _ _ _ _ _ E).
    apply process_shots_acc in H. destruct H as (new & H & ->).
    cbn [filter]. destruct x as [r |].
    + destruct Hk as [-> Hn]. cbn. constructor; auto.
    + rewrite Hk. cbn. auto.
Qed.

Lemma X7_rows_follow_the_shots_witness :
  Forall2 (fun shot r =>
             process_shot scenario_metadata (sequences_entry 1)
                          (hit_samples scenario_samples)
                          (bounce_samples scenario_samples) shot = Ok (Some r) /\
             shot.["shot_no"] = Ok (r_shot_n r))
          (filter (kept (hit_samples scenario_samples))
                  [shot_entry 2 "B" scenario_time (JInt 1); scenario_shot])
          [scenario_row].
Proof.
  apply (X7_rows_follow_the_shots scenario_metadata (sequences_entry 1)
           (hit_samples scenario_samples) (bounce_samples scenario_samples)
           [shot_entry 2 "B" scenario_time (JInt 1); scenario_shot] [scenario_row]).
  vm_compute. reflexivity.
Defined.

Lemma row_metadata md seqs hits bounces shot shot_n r :
  build_row md seqs hits bounces shot shot_n = Ok r ->
  (md_match md).["season"] = Ok (r_season r) /\
  (md_match md).["tournament_id"] = Ok (r_tournament_id r) /\
  (md_match md).["draw_code"] = Ok (r_draw_code r) /\
  exists team player,
    shot.["team"] = Ok team /\
    players_get (md_players md) team = Ok player /\
    player.["external_id"] = Ok (r_hitter_external_id r).
Proof.
  intros H. unfold build_row in H. inv_bind H. injection H as <-.
  match goal with
  | Hh : row_head _ _ _ _ _ _ _ _ = Ok _ |- _ => unfold row_head in Hh; inv_bind Hh;
                                                 injection Hh as <-
  end.
  cbn. repeat (split; [assumption |]). eauto.
Qed.

Lemma process_files_later a names :
  forall index md rows0 rows r,
    process_files a names (S index) md rows0 = Ok rows ->
    In r rows ->
    In r rows0 \/
    exists seqs hits bounces shot shot_n,
      build_row md seqs hits bounces shot shot_n = Ok r.
Proof.
  induction names as [| n names IH]; cbn [process_files];
    intros index md rows0 rows r H Hr.
  - injection H as <-. now left.
  - inv_bind H. cbn in E0. injection E0 as <-.
    destruct (IH _ _ _ _ _ H Hr) as [Hin | Hex]; [| now right].
    apply process_document_inv in E1.
    destruct E1 as (seqs & samples & shots & _ & Hshots).
    destruct (process_shots_provenance _ _ _ _ _ _ _ _ Hshots Hin)
      as [Hin0 | (shot & _ & Hs)]; [now left |].
    right. apply process_shot_row in Hs. destruct Hs as (shot_n & _ & _ & Hb).
    eauto 10.
Qed.

(** X8. Every row of a run carries the match data of the first document in
    sort order, whichever document the row comes from: [season],
    [tournament_id] and [draw_code] are read from that document's ["match"],
    and [hitter_external_id] from the roster built from it. *)
Theorem X8_rows_carry_first_document_match :
  forall a rows r,
    extract_rows a = Ok rows ->
    In r rows ->
    exists first rest data md,
      sort_files (namelist a) = Ok (first :: rest) /\
      read_document a first = Ok data /\
      read_metadata data = Ok md /\
      data.["match"] = Ok (md_match md) /\
      (md_match md).["season"] = Ok (r_season r) /\
      (md_match md).["tournament_id"] = Ok (r_tournament_id r) /\
      (md_match md).["draw_code"] = Ok (r_draw_code r) /\
      exists shot team player,
        shot.["team"] = Ok team /\
        players_get (md_players md) team = Ok player /\
        player.["external_id"] = Ok (r_hitter_external_id r).
Proof.
  intros a rows r H Hr. unfold extract_rows in H.
  destruct (sort_files (namelist a)) as [[| first rest] |] eqn:Es;
    cbn [bind] in H; [| | discriminate].
  - cbn in H. injection H as <-. destruct Hr.
  - cbn [process_files] in H. inv_bind H. cbn [Nat.eqb] in E0.
    assert (Hbuilt : exists seqs hits bounces shot shot_n,
               build_row x0 seqs hits bounces shot shot_n = Ok r).
    { destruct (process_files_later _ _ _ _ _ _ _ H Hr) as [Hin | Hex]; [| exact Hex].
      apply process_document_inv in E1.
      destruct E1 as (seqs & samples & shots & _ & Hshots).
      destruct (process_shots_provenance _ _ _ _ _ _ _ _ Hshots Hin)
        as [[] | (shot & _ & Hs)].
      apply process_shot_row in Hs. destruct Hs as (shot_n & _ & _ & Hb).
      eauto 10. }
    destruct Hbuilt as (seqs & hits & bounces & shot & shot_n & Hb).
    apply row_metadata in Hb.
    destruct Hb as (H1 & H2 & H3 & team & player & Ht & Hp & He).
    exists first, rest, x, x0. split; [reflexivity |].
    split; [assumption |]. split; [assumption |]. split.
    { unfold read_metadata in E0. inv_bind E0. injection E0 as <-. assumption. }
    repeat (split; [assumption |]). exists shot, team, player. auto.
Qed.

Lemma X8_rows_carry_first_document_witness :
  exists first rest data md,
    sort_files (namelist [("data/2_0.json", Some second_doc);
                          ("data/1_0.json", Some first_doc)])
    = Ok (first :: rest) /\
    read_document [("data/2_0.json", Some second_doc);
                   ("data/1_0.json", Some first_doc)] first = Ok data /\
    read_metadata data = Ok md /\
    data.["match"] = Ok (md_match md) /\
    (md_match md).["season"] = Ok (r_season scenario_row) /\
    (md_match md).["tournament_id"] = Ok (r_tournament_id scenario_row) /\
    (md_match md).["draw_code"] = Ok (r_draw_code scenario_row) /\
    exists shot team player,
      shot.["team"] = Ok team /\
      players_get (md_players md) team = Ok player /\
      player.["external_id"] = Ok (r_hitter_external_id scenario_row).
Proof.
  eapply (X8_rows_carry_first_document_match
            [("data/2_0.json", Some second_doc); ("data/1_0.json", Some first_doc)]).
  - vm_compute. reflexivity.
  - left. reflexivity.
Defined.

Lemma same_or_eq_strings a b : same_or_eq (JStr a) (JStr b) = String.eqb a b.
Proof. reflexivity. Qed.

Lemma pydict_set_find d t p s :
  Forall (fun kv => exists k, fst kv = JStr k) d ->
  pydict_find (pydict_set d (JStr t) p) (JStr s) =
  (if String.eqb t s then Some p else pydict_find d (JStr s)) /\
  Forall (fun kv => exists k, fst kv = JStr k) (pydict_set d (JStr t) p).
Proof.
  induction 1 as [| [k v] d (k' & Hk) Hd IH]; cbn [pydict_set pydict_find].
  - rewrite same_or_eq_strings. split; [reflexivity |].
    constructor; [cbn; eauto | constructor].
  - cbn in Hk. subst k. rewrite same_or_eq_strings.
    destruct IH as [IH1 IH2].
    destruct (String.eqb_spec k' t) as [-> | Hne]; cbn [pydict_find].
    + rewrite same_or_eq_strings. split.
      * destruct (String.eqb t s); reflexivity.
      * constructor; [cbn; eauto | assumption].
    + rewrite same_or_eq_strings, IH1. split.
      * destruct (String.eqb_spec k' s) as [-> | Hne'].
        -- destruct (String.eqb_spec t s); [congruence | reflexivity].
        -- reflexivity.
      * constructor; [cbn; eauto | assumption].
Qed.

Lemma players_by_team_strings l :
  Forall (fun p => exists t, p.["team"] = Ok (JStr t)) l ->
  forall d,
    Forall (fun kv => exists k, fst kv = JStr k) d ->
    exists roster,
      players_by_team l d = Ok roster /\
      forall s,
        pydict_find roster (JStr s) =
        match last_of (filter (team_is s) l) with
        | Some p => Some p
        | None => pydict_find d (JStr s)
        end.
Proof.
  induction 1 as [| p l (t & Ht) Hl IH]; intros d Hd.
  - exists d. split; [reflexivity |]. intros s. reflexivity.
  - cbn [players_by_team]. rewrite Ht. cbn [bind hashable].
    destruct (pydict_set_find d t p "" Hd) as [_ Hd'].
    destruct (IH _ Hd') as (roster & Hr & Hfind).
    exists roster. split; [assumption |]. intros s. rewrite Hfind.
    destruct (pydict_set_find d t p s Hd) as [Hset _]. rewrite Hset.
    unfold last_of, team_is. cbn [filter]. rewrite Ht.
    fold (team_is s).
    destruct (String.eqb t s); cbn [rev].
    + destruct (rev (filter (team_is s) l)); reflexivity.
    + reflexivity.
Qed.

(** X9. In a roster whose teams are strings, the player looked up for a
    team is the last roster entry of that team (a later entry replaces an
    earlier one of the same team); the lookup fails with KeyError exactly
    when no entry has that team. *)
Theorem X9_roster_keeps_last_player_of_team :
  forall l,
    Forall (fun p => exists t, p.["team"] = Ok (JStr t)) l ->
    exists roster,
      players_by_team l [] = Ok roster /\
      forall s,
        players_get (Some roster) (JStr s) =
        match last_of (filter (team_is s) l) with
        | Some p => Ok p
        | None => Err KeyError
        end.
Proof.
  intros l Hl. destruct (players_by_team_strings l Hl [] (Forall_nil _))
    as (roster & Hr & Hfind).
  exists roster. split; [assumption |]. intros s.
  cbn [players_get]. unfold pydict_get. cbn [hashable]. rewrite Hfind.
  destruct (last_of (filter (team_is s) l)); reflexivity.
Qed.

Lemma X9_roster_witness :
  exists roster,
    players_by_team [player_entry "A" "first"; player_entry "B" "other";
                     player_entry "A" "second"] [] = Ok roster /\
    forall s,
      players_get (Some roster) (JStr s) =
      match last_of (filter (team_is s)
                            [player_entry "A" "first"; player_entry "B" "other";
                             player_entry "A" "second"]) with
      | Some p => Ok p
      | None => Err KeyError
      end.
Proof.
  apply (X9_roster_keeps_last_player_of_team
           [player_entry "A" "first"; player_entry "B" "other";
            player_entry "A" "second"]).
  repeat constructor; eexists; reflexivity.
Defined.

Lemma filter_none {A : Type} (f : A -> bool) (l : list A) :
  (forall x, In x l -> f x = false) -> filter f l = [].
Proof.
  induction l as [| x l IH]; intros H; [reflexivity |].
  cbn. rewrite (H x (or_introl eq_refl)). apply IH. intros y Hy. apply H. now right.
Qed.

Lemma filter_all {A : Type} (f : A -> bool) (l : list A) :
  (forall x, In x l -> f x = true) -> filter f l = l.
Proof.
  induction l as [| x l IH]; intros H; [reflexivity |].
  cbn. rewrite (H x (or_introl eq_refl)). f_equal. apply IH.
  intros y Hy. apply H. now right.
Qed.

(** X10. When no entry of the hit sample has the team of the shot, or when
    all have it, the sort leaves the entries as the sample lists them: the
    first listed entry fills [hitter_x], [hitter_y] and the second fills
    [receiver_x], [receiver_y], whoever hit the ball. *)
Theorem X10_players_keep_sample_order_without_unique_hitter :
  forall a rows r,
    extract_rows a = Ok rows ->
    In r rows ->
    exists md data seqs samples shots shot shot_n hit l,
      row_of_shot a md data seqs samples shots shot shot_n r /\
      py_index_pred (hit_samples samples) shot_n = Ok hit /\
      (exists ps, hit.["players"] = Ok ps /\ py_iter ps = Ok l) /\
      ((forall x, In x l -> is_hitter shot x = false) \/
       (forall x, In x l -> is_hitter shot x = true) ->
       exists p0 p1 rest,
         l = p0 :: p1 :: rest /\
         sorted_players hit shot = Ok l /\
         position_in p0 (r_hitter_x r) (r_hitter_y r) /\
         position_in p1 (r_receiver_x r) (r_receiver_y r)).
Proof.
  intros a rows r H Hr.
  destruct (emitted_row_provenance _ _ _ H Hr)
    as (md & data & seqs & samples & shots & shot & shot_n & Hrow).
  assert (Hb := Hrow). destruct Hb as (_ & _ & _ & _ & _ & Hb).
  apply row_positions in Hb.
  destruct Hb as (hit & ps & l & p0 & p1 & rest & Hhit & Hps & Hl & Hsort & Heq
                  & Hp0 & Hp1).
  exists md, data, seqs, samples, shots, shot, shot_n, hit, l.
  split; [assumption |]. split; [assumption |]. split; [eauto |].
  intros Hsame. exists p0, p1, rest.
  assert (Hl' : l = p0 :: p1 :: rest).
  { rewrite <- Heq. unfold is_receiver. destruct Hsame as [Hnone | Hall].
    - rewrite (filter_none _ _ Hnone), filter_all; [reflexivity |].
      intros x Hx. now rewrite (Hnone x Hx).
    - rewrite (filter_all _ _ Hall), filter_none; [now rewrite app_nil_r |].
      intros x Hx. now rewrite (Hall x Hx). }
  split; [assumption |]. split; [now rewrite Hl' |]. auto.
Qed.

Lemma X10_players_keep_sample_order_witness :
  exists md data seqs samples shots shot shot_n hit l,
    row_of_shot strangers_archive md data seqs samples shots shot shot_n
                strangers_row /\
    py_index_pred (hit_samples samples) shot_n = Ok hit /\
    (exists ps, hit.["players"] = Ok ps /\ py_iter ps = Ok l) /\
    ((forall x, In x l -> is_hitter shot x = false) \/
     (forall x, In x l -> is_hitter shot x = true) ->
     exists p0 p1 rest,
       l = p0 :: p1 :: rest /\
       sorted_players hit shot = Ok l /\
       position_in p0 (r_hitter_x strangers_row) (r_hitter_y strangers_row) /\
       position_in p1 (r_receiver_x strangers_row) (r_receiver_y strangers_row)).
Proof.
  apply (X10_players_keep_sample_order_without_unique_hitter
           strangers_archive [strangers_row] strangers_row).
  - vm_compute. reflexivity.
  - left. reflexivity.
Defined.

(** ** The bounce search *)

(** X11. The bounce search stops at the first sample that decides it: with
    only samples outside the window before it, a sample inside the window is
    the bounce, and a sample whose test raises an error ends the search with
    that error, whatever samples come after it, well formed or not. *)
Theorem X11_bounce_search_stops_at_first_decisive_sample :
  forall hit duration before x after,
    Forall (outside_window hit duration) before ->
    (in_window hit duration x = Ok true ->
     find_bounce hit duration (before ++ x :: after) = Ok (Some x)) /\
    (forall e, in_window hit duration x = Err e ->
               find_bounce hit duration (before ++ x :: after) = Err e) /\
    find_bounce hit duration before = Ok None.
Proof.
  intros hit duration before x after Hb.
  induction Hb as [| y before Hy Hb IH]; cbn [app find_bounce].
  - split; [| split].
    + intros ->. reflexivity.
    + intros e ->. reflexivity.
    + reflexivity.
  - unfold outside_window in Hy. rewrite Hy. cbn [bind]. exact IH.
Qed.

Lemma X11_bounce_search_witness :
  find_bounce scenario_hit (JInt 1)
              ([sample_entry "bounce" (JInt 10) 0 0 0 []] ++
               scenario_bounce :: [JNull]) = Ok (Some scenario_bounce).
Proof.
  apply (X11_bounce_search_stops_at_first_decisive_sample scenario_hit (JInt 1)
           [sample_entry "bounce" (JInt 10) 0 0 0 []] scenario_bounce [JNull]).
  - repeat constructor.
  - vm_compute. reflexivity.
Defined.

(** X12. With integer times, a shot whose integer duration is zero or
    negative has an empty window: no bounce is found, however many bounce
    samples there are. *)
Theorem X12_no_bounce_without_positive_duration :
  forall hit h d bounces,
    hit.["time"] = Ok (JInt h) ->
    d <= 0 ->
    Forall (fun x => exists t, x.["time"] = Ok (JInt t)) bounces ->
    find_bounce hit (JInt d) bounces = Ok None.
Proof.
  intros hit h d bounces Hh Hd Hb.
  induction Hb as [| x bounces (t & Ht) Hb IH]; cbn [find_bounce]; [reflexivity |].
  destruct (in_window_integers hit x h t d Hh Ht) as [_ Hout].
  rewrite (proj2 Hout) by lia. exact IH.
Qed.

Lemma X12_no_bounce_witness :
  find_bounce scenario_hit (JInt 0)
              [sample_entry "bounce" (JInt 10) 4 5 0 [];
               sample_entry "bounce" (JInt 11) 4 5 0 []] = Ok None.
Proof.
  apply (X12_no_bounce_without_positive_duration scenario_hit 10 0).
  - reflexivity.
  - lia.
  - repeat constructor; eexists; reflexivity.
Defined.

(** X13. A shot yields a row only if its [shot_no] is an integer (or a
    boolean): with a float that passes the guard the subscript is refused,
    and a [shot_no] that is no number at all makes the guard itself fail
    with TypeError. *)
Theorem X13_row_needs_integer_shot_no :
  forall md seqs hits bounces shot v,
    shot.["shot_no"] = Ok v ->
    (forall r, process_shot md seqs hits bounces shot = Ok (Some r) ->
               exists z, as_num v = Some (NInt z)) /\
    (as_num v = None -> process_shot md seqs hits bounces shot = Err TypeError) /\
    (forall f ts d et,
       v = JFloat f -> py_gt_len v (length hits) = Ok false ->
       shot.["time_utc"] = Ok ts -> shot.["duration"] = Ok d ->
       end_time_of ts d = Ok et ->
       process_shot md seqs hits bounces shot = Err TypeError).
Proof.
  intros md seqs hits bounces shot v Hv. split; [| split].
  - intros r H. apply process_shot_row in H. destruct H as (n & Hn & _ & H).
    rewrite Hv in Hn. injection Hn as <-.
    apply build_row_inv in H.
    destruct H as (ts & dur & et & hit & b & ps & hb & bb & Hsteps).
    destruct Hsteps as (_ & _ & _ & Hhit & _).
    unfold py_index_pred in Hhit.
    destruct (as_num v) as [[z | f] |]; [eauto | discriminate | discriminate].
  - intros Hnone. unfold process_shot. rewrite Hv. cbn [bind].
    unfold py_gt_len. now rewrite Hnone.
  - intros f ts d et -> Hg Hts Hd Het. unfold process_shot.
    rewrite Hv. cbn [bind]. rewrite Hg. cbn [bind]. unfold build_row.
    rewrite Hts. cbn [bind]. rewrite Hd. cbn [bind]. rewrite Het. reflexivity.
Qed.

Lemma X13_row_needs_integer_shot_no_witness :
  process_shot scenario_metadata (sequences_entry 1)
               (hit_samples scenario_samples) (bounce_samples scenario_samples)
               (JObj [("shot_no", JFloat 1); ("time_utc", JStr scenario_time);
                      ("duration", JInt 1)])
  = Err TypeError.
Proof.
  refine (proj2 (proj2
    (X13_row_needs_integer_shot_no scenario_metadata (sequences_entry 1)
       (hit_samples scenario_samples) (bounce_samples scenario_samples)
       (JObj [("shot_no", JFloat 1); ("time_utc", JStr scenario_time);
              ("duration", JInt 1)])
       (JFloat 1) _)) 1%float (JStr scenario_time) (JInt 1)
       "2023-01-01T00:00:01Z" _ _ _ _ _);
    vm_compute; reflexivity.
Defined.

(** ** The end timestamp *)

Lemma strptime_valid ts t : strptime ts = Ok t -> valid_datetime t = true.
Proof.
  unfold strptime. destruct ts; try discriminate.
  destruct (m_timestamp s) as [| [t' [| c r]] l]; try discriminate.
  destruct (valid_datetime t') eqn:E; [| discriminate].
  intros H. injection H as <-. exact E.
Qed.

Lemma valid_datetime_ranges t :
  valid_datetime t = true ->
  1 <= dt_year t <= 9999 /\ 1 <= dt_month t <= 12 /\
  1 <= dt_day t <= days_in_month (dt_year t) (dt_month t) /\
  0 <= dt_hour t <= 23 /\ 0 <= dt_minute t <= 59 /\ 0 <= dt_second t <= 59 /\
  0 <= dt_microsecond t <= 999999.
Proof.
  unfold valid_datetime. intros H.
  repeat (apply andb_prop in H; destruct H as [H ?]).
  repeat match goal with
         | E : (_ <=? _) = true |- _ => apply Z.leb_le in E
         end.
  apply Z.leb_le in H. lia.
Qed.

Lemma datetime_add_microsecond t delta t1 :
  datetime_add t delta = Ok t1 ->
  dt_microsecond t1 = (dt_microsecond t + delta) mod US_PER_SECOND.
Proof.
  unfold datetime_add. cbv zeta.
  destruct (_ && _); [| discriminate].
  destruct (ord2ymd _) as [[y m] d]. intros H. injection H as <-.
  cbn [dt_microsecond]. unfold US_PER_DAY.
  rewrite Z.mod_mod_divide by (exists 86400; reflexivity).
  match goal with
  | |- ((?a * US_PER_SECOND + ?u + ?d) mod _) = _ =>
      replace (a * US_PER_SECOND + u + d) with (u + d + a * US_PER_SECOND) by ring
  end.
  apply Z_mod_plus_full.
Qed.

(** X14. A duration in whole seconds leaves the fraction of the start time
    untouched: the end time has the microsecond of the parsed [time_utc], so
    the end timestamp is printed without a fraction (20 characters with the
    "Z") exactly when the start falls on a whole second, and with six digits
    (27 characters) otherwise. *)
Theorem X14_whole_seconds_keep_the_fraction :
  forall ts d t0 et,
    strptime ts = Ok t0 ->
    end_time_of ts (JInt d) = Ok et ->
    exists t1,
      datetime_add t0 (d * US_PER_SECOND) = Ok t1 /\
      et = (isoformat t1 ++ "Z")%string /\
      dt_microsecond t1 = dt_microsecond t0 /\
      String.length et = if dt_microsecond t0 =? 0 then 20%nat else 27%nat.
Proof.
  intros ts d t0 et Hs H. unfold end_time_of in H. rewrite Hs in H.
  cbn [bind] in H. unfold timedelta_seconds in H. cbn [as_num] in H.
  unfold check_delta in H.
  destruct (MAX_DELTA_DAYS <? _); [discriminate |]. cbn [bind] in H.
  destruct (datetime_add t0 (d * US_PER_SECOND)) as [t1 | e] eqn:Ha;
    [| discriminate].
  assert (Het : et = (isoformat t1 ++ "Z")%string)
    by (change (Ok (isoformat t1 ++ "Z")%string = Ok et) in H; congruence).
  clear H. subst et.
  assert (Hus : dt_microsecond t1 = dt_microsecond t0).
  { rewrite (datetime_add_microsecond _ _ _ Ha), Z_mod_plus_full.
    apply Z.mod_small. apply strptime_valid, valid_datetime_ranges in Hs.
    unfold US_PER_SECOND. lia. }
  exists t1. split; [reflexivity |]. split; [reflexivity |].
  split; [assumption |].
  rewrite string_length_app, isoformat_length, Hus.
  destruct (dt_microsecond t0 =? 0); reflexivity.
Qed.

Lemma X14_whole_seconds_witness :
  exists t1,
    datetime_add (mk_datetime 2023 12 31 23 59 59 250000) (2 * US_PER_SECOND)
    = Ok t1 /\
    "2024-01-01T00:00:01.250000Z" = (isoformat t1 ++ "Z")%string /\
    dt_microsecond t1 = 250000 /\
    String.length "2024-01-01T00:00:01.250000Z" = 27%nat.
Proof.
  apply (X14_whole_seconds_keep_the_fraction
           (JStr "2023-12-31T23:59:59.25Z") 2
           (mk_datetime 2023 12 31 23 59 59 250000)
           "2024-01-01T00:00:01.250000Z").
  - vm_compute. reflexivity.
  - vm_compute. reflexivity.
Defined.

(** ** Reading a printed time back *)

Lemma digit_of_digit_char x : digit_of (digit_char x) = Some (x mod 10).
Proof.
  unfold digit_of, digit_char. cbv zeta.
  pose proof (Z.mod_pos_bound x 10 ltac:(lia)) as Hx.
  rewrite N_ascii_embedding by lia. rewrite Z2N.id by lia.
  replace ((48 <=? 48 + x mod 10) && (48 + x mod 10 <=? 57)) with true.
  - f_equal. lia.
  - symmetry. apply andb_true_intro. split; apply Z.leb_le; lia.
Qed.

Lemma m_digit_any x rest :
  m_digit 0 9 (String (digit_char x) rest) = [(x mod 10, rest)].
Proof.
  unfold m_digit. rewrite digit_of_digit_char.
  pose proof (Z.mod_pos_bound x 10 ltac:(lia)) as Hx.
  replace ((0 <=? x mod 10) && (x mod 10 <=? 9)) with true; [reflexivity |].
  symmetry. apply andb_true_intro. split; apply Z.leb_le; lia.
Qed.

Lemma m_char_digit c x rest :
  digit_of c = None -> m_char c (String (digit_char x) rest) = [].
Proof.
  intros Hc. unfold m_char.
  destruct (Ascii.eqb (digit_char x) c) eqn:E; [| reflexivity].
  apply Ascii.eqb_eq in E. rewrite <- E, digit_of_digit_char in Hc. discriminate.
Qed.

Lemma m_char_same c rest : m_char c (String c rest) = [(tt, rest)].
Proof. unfold m_char. now rewrite Ascii.eqb_refl. Qed.

Lemma m_bind_eq {A B : Type} (m : matcher A) (k : A -> matcher B) s :
  m_bind m k s = flat_map (fun r => k (fst r) (snd r)) (m s).
Proof. reflexivity. Qed.

Lemma Z_below (P : Z -> Prop) (n : nat) :
  (forall k, (k < n)%nat -> P (Z.of_nat k)) -> forall v, 0 <= v < Z.of_nat n -> P v.
Proof. intros H v Hv. rewrite <- (Z2Nat.id v) by lia. apply H. lia. Qed.

Ltac enum_field v n :=
  let Hv := fresh "Hv" in
  let H0 := fresh "H0" in
  let i := fresh "i" in
  let Hi := fresh "Hi" in
  intros Hv;
  assert (H0 : 0 <= v < Z.of_nat n) by lia;
  revert Hv; pattern v; apply (Z_below _ n); [| exact H0];
  intros i Hi;
  repeat (destruct i as [| i];
          [ clear Hi; intros Hv; try lia;
            cbv -[app]; cbn [app]; rewrite ?app_nil_r; reflexivity
          | try lia ]).

Lemma year_then {B : Type} (k : Z -> matcher B) y rest :
  0 <= y <= 9999 ->
  m_bind m_Y (fun x => m_bind (m_char "-") (fun _ => k x))
         (zero_padded 4 y ++ String "-" rest)%string = k y rest.
Proof.
  intros Hy.
  change (zero_padded 4 y ++ String "-" rest)%string
    with (String (digit_char (y / 10 / 10 / 10))
            (String (digit_char (y / 10 / 10))
               (String (digit_char (y / 10))
                  (String (digit_char y) (String "-"%char rest))))).
  unfold m_Y. rewrite !m_bind_eq.
  repeat (rewrite m_digit_any; cbn [flat_map fst snd]; rewrite ?m_bind_eq).
  unfold m_ret. rewrite !app_nil_r. cbn [flat_map fst snd].
  rewrite m_bind_eq, m_char_same. cbn [flat_map fst snd].
  rewrite !app_nil_r. f_equal.
  Z.div_mod_to_equations. lia.
Qed.

Lemma month_then {B : Type} (k : Z -> matcher B) v rest :
  1 <= v <= 12 ->
  m_bind m_m (fun x => m_bind (m_char "-") (fun _ => k x))
         (zero_padded 2 v ++ String "-" rest)%string = k v rest.
Proof. enum_field v 13%nat. Qed.

Lemma day_then {B : Type} (k : Z -> matcher B) v rest :
  1 <= v <= 31 ->
  m_bind m_d (fun x => m_bind (m_letter "T" "t") (fun _ => k x))
         (zero_padded 2 v ++ String "T" rest)%string = k v rest.
Proof. enum_field v 32%nat. Qed.

Lemma hour_then {B : Type} (k : Z -> matcher B) v rest :
  0 <= v <= 23 ->
  m_bind m_H (fun x => m_bind (m_char ":") (fun _ => k x))
         (zero_padded 2 v ++ String ":" rest)%string = k v rest.
Proof. enum_field v 24%nat. Qed.

Lemma minute_then {B : Type} (k : Z -> matcher B) v rest :
  0 <= v <= 59 ->
  m_bind m_M (fun x => m_bind (m_char ":") (fun _ => k x))
         (zero_padded 2 v ++ String ":" rest)%string = k v rest.
Proof. enum_field v 60%nat. Qed.

Lemma second_then {B : Type} (k : Z -> matcher B) v rest :
  0 <= v <= 59 ->
  m_bind m_S (fun x => m_bind (m_char ".") (fun _ => k x))
         (zero_padded 2 v ++ String "." rest)%string = k v rest.
Proof. enum_field v 60%nat. Qed.

Lemma second_alone {B : Type} (k : Z -> matcher B) v :
  0 <= v <= 59 ->
  m_bind m_S (fun x => m_bind (m_char ".") (fun _ => k x))
         (zero_padded 2 v ++ "Z")%string = [].
Proof. enum_field v 60%nat. Qed.

Lemma m_frac_digit k w acc x s :
  m_frac (S k) w acc (String (digit_char x) s)
  = m_frac k (w / 10) (acc + x mod 10 * w) s ++ [(acc, String (digit_char x) s)].
Proof.
  cbn [m_frac]. unfold m_alt. rewrite m_bind_eq, m_digit_any.
  cbn [flat_map fst snd]. now rewrite app_nil_r.
Qed.

Lemma letter_after_digit {B : Type} (K : matcher B) x s :
  m_bind (m_letter "Z" "z") (fun _ => K) (String (digit_char x) s) = [].
Proof.
  rewrite m_bind_eq. unfold m_letter, m_alt.
  now rewrite !m_char_digit by reflexivity.
Qed.

Lemma microsecond_then {B : Type} (k : Z -> matcher B) us rest :
  0 <= us <= 999999 ->
  m_bind m_f (fun x => m_bind (m_letter "Z" "z") (fun _ => k x))
         (zero_padded 6 us ++ String "Z" rest)%string = k us rest.
Proof.
  intros Hus.
  change (zero_padded 6 us ++ String "Z" rest)%string
    with (String (digit_char (us / 10 / 10 / 10 / 10 / 10))
            (String (digit_char (us / 10 / 10 / 10 / 10))
               (String (digit_char (us / 10 / 10 / 10))
                  (String (digit_char (us / 10 / 10))
                     (String (digit_char (us / 10))
                        (String (digit_char us) (String "Z"%char rest))))))).
  unfold m_f. rewrite (m_bind_eq (m_bind _ _)), (m_bind_eq (m_digit 0 9)).
  rewrite m_digit_any. cbn [flat_map fst snd]. rewrite app_nil_r.
  rewrite !m_frac_digit. cbn [m_frac]. unfold m_ret.
  rewrite !flat_map_app. cbn [flat_map fst snd].
  rewrite !letter_after_digit. rewrite !app_nil_r.
  rewrite m_bind_eq. unfold m_letter, m_alt. rewrite m_char_same.
  change (m_char "z" (String "Z" rest)) with (@nil (unit * string)).
  cbn [app flat_map fst snd]. rewrite app_nil_r. f_equal.
  change (10000 / 10) with 1000. change (1000 / 10) with 100.
  change (100 / 10) with 10. change (10 / 10) with 1.
  Z.div_mod_to_equations. lia.
Qed.

Lemma string_app_assoc (a b c : string) :
  ((a ++ b) ++ c = a ++ (b ++ c))%string.
Proof. induction a as [| x a IH]; cbn; [reflexivity | now rewrite IH]. Qed.

Lemma isoformat_Z_shape t :
  (isoformat t ++ "Z")%string
  = (zero_padded 4 (dt_year t) ++ String "-" (
     zero_padded 2 (dt_month t) ++ String "-" (
     zero_padded 2 (dt_day t) ++ String "T" (
     zero_padded 2 (dt_hour t) ++ String ":" (
     zero_padded 2 (dt_minute t) ++ String ":" (
     zero_padded 2 (dt_second t) ++
     (if (dt_microsecond t =? 0)%Z then "Z"
      else String "." (zero_padded 6 (dt_microsecond t) ++ "Z"))))))))%string.
Proof.
  unfold isoformat.
  destruct (dt_microsecond t =? 0); rewrite !string_app_assoc; reflexivity.
Qed.

Lemma days_in_month_le y m : days_in_month y m <= 31.
Proof.
  unfold days_in_month.
  destruct m as [| p | p]; try lia.
  do 4 (try destruct p as [p | p |]); try destruct (is_leap y); lia.
Qed.

(** X15. The parser reads back what the printer writes only when there is
    a fraction to print: for a valid time, the end timestamp (the ISO
    rendering followed by "Z") parses to the same time if the microsecond is
    not zero, and is refused with ValueError if it is zero, the format
    requiring the dot and at least one digit after the seconds. *)
Theorem X15_end_timestamp_read_back :
  forall t,
    valid_datetime t = true ->
    strptime (JStr (isoformat t ++ "Z"))
    = if dt_microsecond t =? 0 then Err ValueError else Ok t.
Proof.
  intros t Hvalid.
  pose proof (valid_datetime_ranges t Hvalid)
    as (Hy & Hm & Hd & Hh & Hmi & Hs & Hus).
  pose proof (days_in_month_le (dt_year t) (dt_month t)) as Hdm.
  unfold strptime. rewrite isoformat_Z_shape. unfold m_timestamp.
  rewrite year_then by lia. rewrite month_then by lia.
  rewrite day_then by lia. rewrite hour_then by lia.
  rewrite minute_then by lia.
  destruct (dt_microsecond t =? 0) eqn:E.
  - rewrite second_alone by lia. reflexivity.
  - rewrite second_then by lia. rewrite microsecond_then by lia.
    unfold m_ret. destruct t. cbn [dt_year dt_month dt_day dt_hour dt_minute
                                     dt_second dt_microsecond].
    now rewrite Hvalid.
Qed.

Lemma X15_end_timestamp_witness :
  strptime (JStr (isoformat (mk_datetime 2024 2 29 23 59 59 0) ++ "Z"))
  = Err ValueError /\
  strptime (JStr (isoformat (mk_datetime 2024 2 29 23 59 59 1) ++ "Z"))
  = Ok (mk_datetime 2024 2 29 23 59 59 1).
Proof.
  split.
  - apply (X15_end_timestamp_read_back (mk_datetime 2024 2 29 23 59 59 0)).
    reflexivity.
  - apply (X15_end_timestamp_read_back (mk_datetime 2024 2 29 23 59 59 1)).
    reflexivity.
Defined.

(** ** Entries with the same name *)

Lemma zip_read_present a N :
  In N (namelist a) -> exists c, zip_read a N = Ok c.
Proof.
  intros HN. destruct (zip_read a N) as [c | e] eqn:E; [eauto |].
  apply zip_read_missing in E. destruct E as [_ Hno].
  unfold namelist in HN. apply in_map_iff in HN.
  destruct HN as ([n c] & Hn & Hin). cbn in Hn. subst n.
  now destruct (Hno c).
Qed.

Lemma zip_read_shadowed a1 name c c' a2 N :
  In name (namelist a2) ->
  zip_read (a1 ++ (name, c') :: a2) N = zip_read (a1 ++ (name, c) :: a2) N.
Proof.
  intros Hin. induction a1 as [| [n0 c0] a1 IH]; cbn.
  - destruct (zip_read a2 N) as [c1 | e] eqn:E; [reflexivity |].
    destruct (String.eqb_spec name N) as [-> | Hne]; [| reflexivity].
    destruct (zip_read_present a2 N Hin) as (c1 & Hc1). congruence.
  - now rewrite IH.
Qed.

(** X16. Of the entries of the archive that bear the same name only the
    last one is read: the content of an entry whose name comes again later
    in the archive has no effect on the run. *)
Theorem X16_earlier_entry_of_same_name_is_shadowed :
  forall a1 name c c' a2,
    In name (namelist a2) ->
    main (a1 ++ (name, c') :: a2) = main (a1 ++ (name, c) :: a2).
Proof.
  intros a1 name c c' a2 Hin.
  unfold main, extract_rows. rewrite (namelist_replace a1 name c c' a2).
  destruct (sort_files _) as [names | e]; cbn; [| reflexivity].
  rewrite (process_files_ext (a1 ++ (name, c) :: a2) (a1 ++ (name, c') :: a2));
    [reflexivity |].
  intros n _. left. unfold read_document.
  now rewrite (zip_read_shadowed a1 name c c' a2 (entry_path n) Hin).
Qed.

Lemma X16_earlier_entry_witness :
  main (("data/1.json", None) :: scenario_archive)
  = main (("data/1.json", Some scenario_doc) :: scenario_archive).
Proof.
  apply (X16_earlier_entry_of_same_name_is_shadowed
           [] "data/1.json" (Some scenario_doc) None scenario_archive).
  left. reflexivity.
Defined.
